(** * build_map.py: a shallow embedding and its verified properties

    The program scans a directory of spreadsheets, extracts one park record
    per target workbook, renders optional detail pages and composes a folium
    map.  The embedding follows [src/build_map.py] function by function:
    [safe_slug], [read_park_xlsx] (with its nested [get_str]),
    [create_popup_html] and [main].

    Python values are modelled as the code has them: a [str] is a list of
    Unicode code points, a float is an IEEE double (Rocq's primitive floats,
    so that an empty spreadsheet cell really is a NaN), exceptions are values
    of a result type, and [print], [Path.write_text] and the folium map are
    fields of an explicit world that every effectful function threads.
    Standard output is a UTF-8 stream with strict error handling, Python's
    default in a UTF-8 locale: printing a line that holds a lone surrogate
    (as the name of a file with undecodable bytes does) raises. *)

From Stdlib Require Import List NArith ZArith Bool Ascii String Lia.
From Stdlib Require Import Sorting.Sorted Sorting.Permutation.
From Stdlib Require Import Floats DecimalString.
Import ListNotations.

Set Implicit Arguments.
(* Decimal literals such as 120.3 denote the nearest double, as in Python. *)
Set Warnings "-inexact-float".

(* ================================================================== *)
(** ** Python strings *)
(* ================================================================== *)

Module PyStr.

(** A Python [str]: a sequence of Unicode code points. *)
Definition str := list N.

Definition str_eqb (a b : str) : bool :=
  if list_eq_dec N.eq_dec a b then true else false.

(** UTF-8 decoding, used only to write the source's literals as they stand
    in the file (which is UTF-8 encoded). *)
Fixpoint utf8_decode (bs : list N) : str :=
  match bs with
  | [] => []
  | b0 :: r =>
    if (b0 <? 128)%N then b0 :: utf8_decode r
    else if (b0 <? 224)%N then
      match r with
      | b1 :: r1 => ((b0 mod 32) * 64 + b1 mod 64)%N :: utf8_decode r1
      | _ => []
      end
    else if (b0 <? 240)%N then
      match r with
      | b1 :: b2 :: r2 =>
        ((b0 mod 16) * 4096 + (b1 mod 64) * 64 + b2 mod 64)%N :: utf8_decode r2
      | _ => []
      end
    else
      match r with
      | b1 :: b2 :: b3 :: r3 =>
        ((b0 mod 8) * 262144 + (b1 mod 64) * 4096 + (b2 mod 64) * 64 + b3 mod 64)%N
          :: utf8_decode r3
      | _ => []
      end
  end.

(** [u "..."] is the Python literal ["..."]. *)
Definition u (s : string) : str :=
  utf8_decode (map N_of_ascii (list_ascii_of_string s)).

(** The double quote, which the source's HTML templates are full of. *)
Definition dq : str := [34%N].

Definition underscore : N := 95%N.

(** The code points UTF-8 cannot encode under the strict error handler: the
    surrogates, which stand in a [str] for undecodable bytes of a file
    name. *)
Definition is_surrogate (c : N) : bool := ((0xD800 <=? c) && (c <=? 0xDFFF))%N.

(** [s.encode("utf-8")] does not raise. *)
Definition encodable (s : str) : bool := negb (existsb is_surrogate s).

(** [Py_UNICODE_ISSPACE]: the code points that [str.strip()] removes and
    that [\s] matches in a [str] pattern. *)
Definition is_space (c : N) : bool :=
  ((9 <=? c) && (c <=? 13) || (28 <=? c) && (c <=? 32)
   || (c =? 0x85) || (c =? 0xA0) || (c =? 0x1680)
   || (0x2000 <=? c) && (c <=? 0x200A)
   || (c =? 0x2028) || (c =? 0x2029) || (c =? 0x202F)
   || (c =? 0x205F) || (c =? 0x3000))%N.

Fixpoint lstrip (s : str) : str :=
  match s with
  | c :: r => if is_space c then lstrip r else s
  | [] => []
  end.

(** [text.strip()] *)
Definition strip (s : str) : str := rev (lstrip (rev (lstrip s))).

(** [re.sub(r"\s+", "_", text)]: every maximal run of whitespace becomes one
    underscore.  [in_run] says that the previous character was whitespace,
    i.e. that the current match of [\s+] is still being extended. *)
Fixpoint sub_space_runs (in_run : bool) (s : str) : str :=
  match s with
  | [] => []
  | c :: r =>
    if is_space c then
      if in_run then sub_space_runs true r
      else underscore :: sub_space_runs true r
    else c :: sub_space_runs false r
  end.

Section Slug.

(** [str.isalnum] on one code point: the Unicode database's table behind
    [\w], which is not part of the program. *)
Variable uni_alnum : N -> bool.

(** [\w] in a [str] pattern: alphanumeric or underscore. *)
Definition is_word (c : N) : bool := uni_alnum c || (c =? underscore)%N.

(** The characters the class [[\w一-鿿\-_.]] contains. *)
Definition slug_allowed (c : N) : bool :=
  is_word c
  || ((0x4e00 <=? c) && (c <=? 0x9fff))%N
  || (c =? 45)%N || (c =? underscore)%N || (c =? 46)%N.

(** [re.sub(r"[^\w一-鿿\-_.]", "_", text)] *)
Definition sub_disallowed (s : str) : str :=
  map (fun c => if slug_allowed c then c else underscore) s.

(** [safe_slug] (build_map.py, lines 36-41). *)
Definition safe_slug (text : str) : str :=
  let text := strip text in
  let text := sub_space_runs false text in
  sub_disallowed text.

End Slug.

End PyStr.

Import PyStr.

(* ================================================================== *)
(** ** Python values, spreadsheets and the world *)
(* ================================================================== *)

Module Py.

(** [t "..."] is a literal of the source in which a backquote stands for the
    double quote (the source's literals contain no backquote). *)
Definition t (s : string) : str :=
  map (fun c => if (c =? 96)%N then 34%N else c) (u s).

(** An exception: its class name and [str(e)].  Every exception of the model
    is a subclass of [Exception], so [except Exception] and a bare [except]
    catch the same things. *)
Inductive exn : Type := Exn (cls msg : str).

Definition exn_str (e : exn) : str := let 'Exn _ msg := e in msg.

Inductive result (A : Type) : Type :=
| Ok (a : A)
| Raise (e : exn).
Arguments Raise {A} e.

(** The values a cell of a sheet read by pandas can hold, and [None].  An
    empty cell is read as the float NaN. *)
Inductive pyval : Type :=
| PyNone
| PyStr (s : str)
| PyFloat (f : float)
| PyInt (z : Z)
| PyBool (b : bool)
| PyObj (repr : str).  (* any other object (a Timestamp, a time), with its str() *)

Definition nan_cell : pyval := PyFloat nan.

(** [pd.notnull] on a scalar. *)
Definition notnull (v : pyval) : bool :=
  match v with
  | PyNone => false
  | PyFloat f => negb (is_nan f)
  | _ => true
  end.

(** [v == s] for a [str] [s]. *)
Definition is_str (s : str) (v : pyval) : bool :=
  match v with
  | PyStr s' => str_eqb s' s
  | _ => false
  end.

Record DataFrame : Type := {
  columns : list pyval;          (* the column labels, left to right *)
  rows : list (list pyval)       (* the rows, top to bottom *)
}.

(** The cell of a row under column number [i]; pandas pads short rows with
    NaN. *)
Definition cell (i : nat) (row : list pyval) : pyval := nth i row nan_cell.

Fixpoint index_of (s : str) (labels : list pyval) : option nat :=
  match labels with
  | [] => None
  | l :: r => if is_str s l then Some 0 else option_map S (index_of s r)
  end.

(** [name in df.columns] *)
Definition has_column (name : str) (df : DataFrame) : bool :=
  existsb (is_str name) (columns df).

(** What [pd.ExcelFile(path)] finds at a path. *)
Inductive xlsx : Type :=
| Unreadable (e : exn)                              (* opening raises *)
| Workbook (sheets : list (str * result DataFrame)). (* sheet name, and what
                                                        pd.read_excel gives for it *)

Definition sheet_names (sheets : list (str * result DataFrame)) : list str :=
  map fst sheets.

Definition str_in (s : str) (l : list str) : bool := existsb (str_eqb s) l.

(** [pd.read_excel(xl, sheet_name=name)] *)
Fixpoint read_excel (sheets : list (str * result DataFrame)) (name : str)
  : result DataFrame :=
  match sheets with
  | [] => Raise (Exn (u "ValueError") (u "Worksheet not found"))
  | (n, r) :: rest => if str_eqb n name then r else read_excel rest name
  end.

(** A dict built by [Series.to_dict()]: the bindings in row order; a later
    binding of a key replaces an earlier one. *)
Definition dict := list (pyval * pyval).

(** [df.set_index(key_col)[val_col].to_dict()] for the first two columns. *)
Definition to_dict (df : DataFrame) : dict :=
  map (fun row => (cell 0 row, cell 1 row)) (rows df).

(** [m.get(key)] for a [str] key: [None] stands for an absent key. *)
Fixpoint dict_get (m : dict) (key : str) : option pyval :=
  match m with
  | [] => None
  | (k, v) :: rest =>
    match dict_get rest key with
    | Some v' => Some v'
    | None => if is_str key k then Some v else None
    end
  end.

(** ** The folium objects the program builds *)

Record Marker : Type := {
  location : float * float;      (* [lat, lon] *)
  popup : option str;
  tooltip : option str;
  color : str
}.

Inductive Overlay : Type :=
| GeoJson (name : str)
| FeatureGroup (name : str) (markers : list Marker).

Record FoliumMap : Type := {
  overlays : list Overlay;       (* in the order they were added *)
  html_children : list str;
  layer_control : bool
}.

(** ** The world the program acts on *)

Record World : Type := {
  stdout : list str;                       (* lines printed, oldest first *)
  written : list (str * str);              (* Path.write_text: path, and the
                                              content the call left there *)
  saved : list (str * FoliumMap)           (* Map.save: path, document *)
}.

Definition world0 : World := {| stdout := []; written := []; saved := [] |}.

(** [written] is a history: a call of [write_text] that got as far as opening
    its file leaves an entry, also when it then fails (the file is created
    or truncated on opening).  What a path holds on disk is the content of
    its last entry: a later write replaces an earlier one. *)
Fixpoint last_write (log : list (str * str)) (p : str) : option str :=
  match log with
  | [] => None
  | (q, c) :: rest =>
    match last_write rest p with
    | Some c' => Some c'
    | None => if str_eqb q p then Some c else None
    end
  end.

Definition file_at (w : World) (p : str) : option str := last_write (written w) p.

(** The exception of [print] and of [write_text] on text UTF-8 cannot
    encode. *)
Definition encode_error : exn :=
  Exn (u "UnicodeEncodeError")
      (u "'utf-8' codec can't encode character: surrogates not allowed").

(** What the program takes from the interpreter, its libraries and the
    operating system without defining it. *)
Class Runtime : Type := {
  uni_alnum : N -> bool;                   (* str.isalnum, one code point *)
  float_str : float -> str;                (* str(f) *)
  float_of_str : str -> option float;      (* float(s); None: ValueError *)
  to_html : DataFrame -> result str;       (* DataFrame.to_html(...) *)
  key_le : pyval -> pyval -> bool;         (* the order sort_values uses *)
  sortable : list pyval -> bool;           (* can the values be compared? *)
  fs_mkdir : World -> str -> option exn;   (* does mkdir fail here? *)
  fs_write : World -> str -> option exn;   (* does opening this file for
                                              writing fail? *)
  fs_cut : World -> str -> str -> option (exn * nat)
                                           (* does writing the content fail,
                                              and after how many characters? *)
}.

End Py.

Import Py.

(* ================================================================== *)
(** ** The program *)
(* ================================================================== *)

Module BuildMap.

(** *** Effects: a state and exception monad over the world *)

Definition io (A : Type) : Type := World -> World * result A.

Definition ret {A : Type} (a : A) : io A := fun w => (w, Ok a).

Definition lift {A : Type} (r : result A) : io A := fun w => (w, r).

Definition bind {A B : Type} (c : io A) (k : A -> io B) : io B :=
  fun w =>
    match c w with
    | (w1, Ok a) => k a w1
    | (w1, Raise e) => (w1, Raise e)
    end.

(** [try: body except Exception as e: handler(e)] *)
Definition try_except {A : Type} (body : io A) (handler : exn -> io A) : io A :=
  fun w =>
    match body w with
    | (w1, Ok a) => (w1, Ok a)
    | (w1, Raise e) => handler e w1
    end.

Notation "x <- c ;; k" := (bind c (fun x => k))
  (at level 61, c at next level, right associativity).
Notation "c ;;; k" := (bind c (fun _ => k))
  (at level 61, right associativity).

(** [print(line)]: the line goes to standard output, unless it cannot be
    encoded; then nothing is printed and UnicodeEncodeError is raised. *)
Definition print (line : str) : io unit :=
  fun w =>
    if encodable line then
      ({| stdout := stdout w ++ [line];
          written := written w; saved := saved w |}, Ok tt)
    else (w, Raise encode_error).

Section Program.

Context {R : Runtime}.

(** [path.mkdir(parents=True, exist_ok=True)] *)
Definition mkdir (p : str) : io unit :=
  fun w => match fs_mkdir w p with
           | Some e => (w, Raise e)
           | None => (w, Ok tt)
           end.

(** The world after a call has left [content] at path [p]. *)
Definition leave_file (p content : str) (w : World) : World :=
  {| stdout := stdout w;
     written := written w ++ [(p, content)];
     saved := saved w |}.

(** [path.write_text(content, encoding="utf-8")]: the file is opened, which
    creates or truncates it, and then the content is encoded and written.  A
    failure to open leaves nothing; content that cannot be encoded leaves
    the file empty; a write that fails on the way leaves what was written
    before. *)
Definition write_text (p content : str) : io unit :=
  fun w =>
    match fs_write w p with
    | Some e => (w, Raise e)
    | None =>
      if encodable content then
        match fs_cut w p content with
        | Some (e, n) => (leave_file p (firstn n content) w, Raise e)
        | None => (leave_file p content w, Ok tt)
        end
      else (leave_file p [] w, Raise encode_error)
    end.

(** [m.save(path)] *)
Definition save (p : str) (m : FoliumMap) : io unit :=
  fun w => match fs_write w p with
           | Some e => (w, Raise e)
           | None => ({| stdout := stdout w; written := written w;
                         saved := saved w ++ [(p, m)] |}, Ok tt)
           end.

(** *** Configuration (lines 14-30) *)

Definition SCHOOL_EXCEL_name : str :=
  u "111學年度各級學校名錄（含經緯度）20230825.xlsx".
Definition CENTER_EXCEL_name : str := u "園區名單及座標_114.06.05.xlsx".
Definition OUTPUT_DIR : str := u "data".
Definition OUTPUT_HTML : str := u "index.html".
Definition EXCLUDE_FILES : list str :=
  [SCHOOL_EXCEL_name; CENTER_EXCEL_name; u "requirements.txt"; u ".DS_Store"].

Definition SHEET_BASIC : str := u "工業區基本資料".
Definition SHEET_MEAS : str := u "量測資料".
Definition KEY_NAME : str := u "工業區名稱".
Definition KEY_LON : str := u "工業區中心經度".
Definition KEY_LAT : str := u "工業區中心緯度".
Definition KEY_PERIOD : str := u "監測期間".
Definition KEY_TYPE : str := u "資料類型".
Definition KEY_NOTE : str := u "備註".
Definition NOT_FILLED : str := u "（未填）".

(** *** Conversions of the interpreter *)

(** [str(z)] for an int. *)
Definition int_str (z : Z) : str :=
  map N_of_ascii (list_ascii_of_string (NilZero.string_of_int (Z.to_int z))).

(** [float(z)] for an int: the nearest double, OverflowError beyond. *)
Definition float_of_int (z : Z) : result float :=
  let f := SF2Prim (binary_normalize prec emax z 0 false) in
  if is_infinity f then
    Raise (Exn (u "OverflowError") (u "int too large to convert to float"))
  else Ok f.

(** [str(v)] *)
Definition py_str (v : pyval) : str :=
  match v with
  | PyNone => u "None"
  | PyStr s => s
  | PyFloat f => float_str f
  | PyInt z => int_str z
  | PyBool true => u "True"
  | PyBool false => u "False"
  | PyObj repr => repr
  end.

(** [float(v)] *)
Definition py_float (v : pyval) : result float :=
  match v with
  | PyNone =>
    Raise (Exn (u "TypeError")
               (u "float() argument must be a string or a real number, not 'NoneType'"))
  | PyStr s =>
    match float_of_str s with
    | Some f => Ok f
    | None => Raise (Exn (u "ValueError") (u "could not convert string to float"))
    end
  | PyFloat f => Ok f
  | PyInt z => float_of_int z
  | PyBool b => Ok (if b then 1%float else 0%float)
  | PyObj _ =>
    Raise (Exn (u "TypeError") (u "float() argument must be a string or a real number"))
  end.

(** [path.stem] of a file name: the name without its last suffix. *)
Fixpoint rfind (c : N) (s : str) : option nat :=
  match s with
  | [] => None
  | x :: r =>
    match rfind c r with
    | Some i => Some (S i)
    | None => if (x =? c)%N then Some 0 else None
    end
  end.

Definition stem (name : str) : str :=
  match rfind 46 name with
  | Some i => if (0 <? i) && (i <? List.length name - 1) then firstn i name else name
  | None => name
  end.

(** [dir / name] *)
Definition path_join (dir name : str) : str := dir ++ u "/" ++ name.

(** *** [DataFrame.sort_values(name)]

    Rows whose key is missing go last, in their order (na_position='last');
    the other rows are ordered by [key_le]; the call raises when the keys
    cannot be compared.  The order of rows with equal keys is the model's
    (insertion keeps it), nothing below depends on it. *)

Fixpoint insert_row (i : nat) (row : list pyval) (sorted : list (list pyval))
  : list (list pyval) :=
  match sorted with
  | [] => [row]
  | r :: rest =>
    if key_le (cell i row) (cell i r) then row :: sorted
    else r :: insert_row i row rest
  end.

Definition sort_rows (i : nat) (rs : list (list pyval)) : list (list pyval) :=
  fold_right (insert_row i) [] rs.

Definition sort_values (name : str) (df : DataFrame) : result DataFrame :=
  match index_of name (columns df) with
  | None => Raise (Exn (u "KeyError") name)
  | Some i =>
    let present := filter (fun r => notnull (cell i r)) (rows df) in
    let missing := filter (fun r => negb (notnull (cell i r))) (rows df) in
    if sortable (map (cell i) present) then
      Ok {| columns := columns df; rows := sort_rows i present ++ missing |}
    else
      Raise (Exn (u "TypeError") (u "'<' not supported between instances"))
  end.

(** *** [read_park_xlsx] (lines 43-116) *)

Record ParkRecord : Type := {
  park_name : str;
  lon : float;
  lat : float;
  monitoring_period : str;
  data_type : str;
  note : str;
  raw_page_href : str
}.

(** The first [try] block (lines 49-61).  [Ok None] is its [return None];
    [Raise] is an exception, which the caller's handler turns into
    [return None] as well. *)
Definition load_basic_info (file : xlsx)
  : result (option (list (str * result DataFrame) * dict)) :=
  match file with
  | Unreadable e => Raise e
  | Workbook sheets =>
    if negb (str_in SHEET_BASIC (sheet_names sheets)) then Ok None
    else
      match read_excel sheets SHEET_BASIC with
      | Raise e => Raise e
      | Ok df =>
        match nth_error (columns df) 0, nth_error (columns df) 1 with
        | Some key_col, Some val_col => Ok (Some (sheets, to_dict df))
        | _, _ =>
          Raise (Exn (u "IndexError") (u "index out of bounds"))
        end
      end
  end.

(** The nested [get_str] (lines 63-65). *)
Definition get_str (m : dict) (key default : str) : str :=
  let v := match dict_get m key with
           | Some v => v
           | None => PyStr default
           end in
  match v with
  | PyNone => []
  | _ => py_str v
  end.

(** [m.get(key)] as an argument of [float]. *)
Definition m_get (m : dict) (key : str) : pyval :=
  match dict_get m key with
  | Some v => v
  | None => PyNone
  end.

(** The detail page (lines 89-102). *)
Definition page_html (park_name table_html : str) : str :=
  t "<!doctype html>
            <html lang=`zh-Hant`>
            <head>
            <meta charset=`utf-8`>
            <meta name=`viewport` content=`width=device-width, initial-scale=1`>
            <title>" ++ park_name ++ t " - 量測資料</title>
            <link href=`https://cdn.jsdelivr.net/npm/bootstrap@5.1.3/dist/css/bootstrap.min.css` rel=`stylesheet`>
            </head>
            <body class=`p-3`>
            <h3>" ++ park_name ++ t "｜量測資料</h3>
            <div class=`table-responsive` style=`max-height: 90vh;`>
                " ++ table_html ++ t "
            </div>
            </body></html>".

Definition meas_filename_of (park_name : str) : str :=
  safe_slug uni_alnum park_name ++ u "_量測資料.html".

(** The body of the second [try] block (lines 79-104); its value is the new
    [raw_page_href]. *)
Definition write_detail_page (sheets : list (str * result DataFrame))
  (park_name data_dir : str) : io str :=
  meas_df <- lift (read_excel sheets SHEET_MEAS) ;;
  meas_df <- lift (if has_column (u "StartTime") meas_df
                   then sort_values (u "StartTime") meas_df
                   else Ok meas_df) ;;
  mkdir data_dir ;;;
  let meas_filename := meas_filename_of park_name in
  let meas_path := path_join data_dir meas_filename in
  table_html <- lift (to_html meas_df) ;;
  write_text meas_path (page_html park_name table_html) ;;;
  ret (u "./data/" ++ meas_filename).

Definition coord_warning (park_name path_name : str) : str :=
  u "⚠️ " ++ park_name ++ u " (" ++ path_name ++ u ") 經緯度格式錯誤，跳過。".

Definition meas_warning (park_name : str) (e : exn) : str :=
  u "⚠️ " ++ park_name ++ u " 量測資料生成失敗: " ++ exn_str e.

Definition read_park_xlsx (path : str) (file : xlsx) (data_dir : str)
  : io (option ParkRecord) :=
  loaded <- try_except (lift (load_basic_info file)) (fun _ => ret None) ;;
  match loaded with
  | None => ret None
  | Some (sheets, m) =>
    let park_name := get_str m KEY_NAME (stem path) in
    coords <- try_except
                (lon <- lift (py_float (m_get m KEY_LON)) ;;
                 lat <- lift (py_float (m_get m KEY_LAT)) ;;
                 ret (Some (lon, lat)))
                (fun _ => print (coord_warning park_name path) ;;; ret None) ;;
    match coords with
    | None => ret None
    | Some (lon, lat) =>
      raw_page_href <-
        (if str_in SHEET_MEAS (sheet_names sheets) then
           try_except (write_detail_page sheets park_name data_dir)
                      (fun e => print (meas_warning park_name e) ;;; ret [])
         else ret []) ;;
      ret (Some {| park_name := park_name;
                   lon := lon;
                   lat := lat;
                   monitoring_period := get_str m KEY_PERIOD NOT_FILLED;
                   data_type := get_str m KEY_TYPE NOT_FILLED;
                   note := get_str m KEY_NOTE NOT_FILLED;
                   raw_page_href := raw_page_href |})
    end
  end.

(** *** [create_popup_html] (lines 118-145) *)

Definition btn_html (href : str) : str :=
  t "<a href=`" ++ href ++ t "` target=`_blank` style=`color:white;background:#0d6efd;padding:4px 8px;text-decoration:none;border-radius:4px;font-size:12px;`>查看原始資料</a>".

Definition feedback_html (pid : str) : str :=
  t "
    <div style=`margin-top:8px;border-top:1px solid #ccc;padding-top:8px;`>
        <textarea id=`fb_" ++ pid ++ t "` rows=`2` style=`width:100%;font-size:12px;` placeholder=`輸入回饋...`></textarea>
        <button onclick=`sendFeedback('" ++ pid ++ t "')` style=`margin-top:4px;font-size:12px;cursor:pointer;`>送出</button>
        <span id=`msg_" ++ pid ++ t "` style=`font-size:11px;color:green;`></span>
    </div>
    ".

(** The hidden element of the popup (line 143). *)
Definition meta_div (pid name lat_s lon_s : str) : str :=
  t "<div id=`meta_" ++ pid ++ t "` data-park=`" ++ name
    ++ t "` data-lat=`" ++ lat_s ++ t "` data-lon=`" ++ lon_s
    ++ t "` style=`display:none;`></div>".

Definition create_popup_html (park : ParkRecord) : str :=
  let pid := safe_slug uni_alnum (park_name park) in
  let btn := match raw_page_href park with
             | [] => []
             | href => btn_html href
             end in
  t "
    <div style=`font-family:sans-serif;font-size:13px;min-width:250px;`>
        <h5 style=`margin:0 0 8px 0;`>" ++ park_name park ++ t "</h5>
        <div><b>監測期間:</b> " ++ monitoring_period park ++ t "</div>
        <div><b>備註:</b> " ++ note park ++ t "</div>
        <div style=`margin-top:6px;`>" ++ btn ++ t "</div>
        " ++ feedback_html pid ++ t "
        "
    ++ meta_div pid (park_name park) (float_str (lat park)) (float_str (lon park))
    ++ t "
    </div>
    ".

(** *** [main] (lines 150-260) *)

(** What stands at one of the four fixed paths: nothing ([exists()] is
    false), a path [exists()] cannot examine (it raises, PermissionError for
    instance), or a file whose loading raises or gives its content. *)
Inductive source (A : Type) : Type :=
| Absent
| Inaccessible (e : exn)
| Present (r : result A).
Arguments Absent {A}.
Arguments Inaccessible {A} e.

(** [PATH.exists()], which stands outside every [try]. *)
Definition path_exists {A : Type} (src : source A) : io bool :=
  match src with
  | Absent => ret false
  | Inaccessible e => lift (Raise e)
  | Present _ => ret true
  end.

(** A row of the school or centre sheet as the loop reads it with [r.get]:
    [PyNone] under a column the sheet does not have. *)
Record PointRow : Type := {
  row_lat : pyval;
  row_lon : pyval;
  row_name : pyval
}.

Record Background : Type := {
  county : source unit;            (* the whole body of its try block *)
  industrial : source unit;
  school : source (list PointRow);
  center : source (list PointRow)
}.

(** folium's [validate_location], which every marker constructor calls on
    its location: both coordinates must convert to a float that is not NaN. *)
Definition validate_location (a b : pyval) : result (float * float) :=
  let bad := Exn (u "ValueError") (u "Location should consist of two numerical values") in
  let nans := Exn (u "ValueError") (u "Location values cannot contain NaNs.") in
  match py_float a with
  | Raise _ => Raise bad
  | Ok fa =>
    if is_nan fa then Raise nans
    else match py_float b with
         | Raise _ => Raise bad
         | Ok fb => if is_nan fb then Raise nans else Ok (fa, fb)
         end
  end.

(** [folium.CircleMarker([lat, lon], ..., color=color, popup=name)] *)
Definition circle_marker (color : str) (r : PointRow) : result Marker :=
  match validate_location (row_lat r) (row_lon r) with
  | Raise e => Raise e
  | Ok loc =>
    Ok {| location := loc;
          popup := match row_name r with
                   | PyNone => None
                   | v => Some (py_str v)
                   end;
          tooltip := None;
          color := color |}
  end.

(** The loops of lines 178-180 and 189-192 over the rows of a sheet: the
    markers added to the feature group so far, and how the loop ended. *)
Fixpoint add_points (color : str) (rs : list PointRow) (fg : list Marker)
  : list Marker * result unit :=
  match rs with
  | [] => (fg, Ok tt)
  | r :: rest =>
    if notnull (row_lat r) && notnull (row_lon r) then
      match circle_marker color r with
      | Ok mk => add_points color rest (fg ++ [mk])
      | Raise e => (fg, Raise e)
      end
    else add_points color rest fg
  end.

(** [try: ... except: pass] around such a loop, for a path that exists; the
    group stays empty for any other. *)
Definition load_points (color : str) (src : source (list PointRow)) : list Marker :=
  match src with
  | Present (Ok rs) => fst (add_points color rs [])
  | _ => []
  end.

Definition add_overlay (o : Overlay) (m : FoliumMap) : FoliumMap :=
  {| overlays := overlays m ++ [o];
     html_children := html_children m;
     layer_control := layer_control m |}.

(** [folium.Marker([lat, lon], popup=..., tooltip=..., icon=green)] for an
    extracted record (lines 213-219). *)
Definition target_marker (data : ParkRecord) : result Marker :=
  let popup := create_popup_html data in
  match validate_location (PyFloat (lat data)) (PyFloat (lon data)) with
  | Raise e => Raise e
  | Ok loc =>
    Ok {| location := loc;
          popup := Some popup;
          tooltip := Some (park_name data);
          color := u "green" |}
  end.

(** The loop of lines 204-220, from any point of its run: [fg] is the
    feature group and [count] the counter so far. *)
Fixpoint scan_targets (files : list (str * xlsx)) (fg : list Marker) (count : Z)
  : io (list Marker * Z) :=
  match files with
  | [] => ret (fg, count)
  | (name, file) :: rest =>
    if str_in name EXCLUDE_FILES then scan_targets rest fg count
    else
      data <- read_park_xlsx name file OUTPUT_DIR ;;
      match data with
      | Some d =>
        print (u "  ✅ 成功載入: " ++ park_name d) ;;;
        mk <- lift (target_marker d) ;;
        scan_targets rest (fg ++ [mk]) (count + 1)
      | None => scan_targets rest fg count
      end
  end.

(** [Path(".").glob("*.xlsx")] over the entries of the working directory. *)
Definition ends_with (suffix s : str) : bool :=
  str_eqb (skipn (List.length s - List.length suffix) s) suffix.

Definition glob_xlsx (dir : list (str * xlsx)) : list (str * xlsx) :=
  filter (fun e => ends_with (u ".xlsx") (fst e)) dir.

Definition TARGET_GROUP : str := u "📌 分析目標 (含回饋)".

Definition feedback_js : str :=
  t "
    <script>
    const GAS_URL = `https://script.google.com/macros/s/AKfycby5yDZnSrExZyGm3xZzgpFwZbS-877qCAVUsn8BPe9-BuY0ZkzvAC_r04p39GXv9rUs_A/exec`;
    async function sendFeedback(pid){
        const meta = document.getElementById(`meta_`+pid);
        const txt = document.getElementById(`fb_`+pid).value;
        const msg = document.getElementById(`msg_`+pid);
        if(!txt) return alert(`請輸入內容`);
        
        msg.innerText = `傳送中...`;
        const form = new URLSearchParams();
        form.append(`timestamp`, new Date().toISOString());
        form.append(`park`, meta.dataset.park);
        form.append(`lat`, meta.dataset.lat);
        form.append(`lon`, meta.dataset.lon);
        form.append(`feedback`, txt);
        form.append(`page_url`, location.href);
        
        try {
            await fetch(GAS_URL, {method:`POST`, mode:`no-cors`, body:form});
            msg.innerText = `✅ 已送出`;
            msg.style.color = `green`;
            document.getElementById(`fb_`+pid).value = ``;
        } catch(e) {
            msg.innerText = `❌ 失敗`;
            msg.style.color = `red`;
        }
    }
    </script>
    ".

Definition main (bg : Background) (dir : list (str * xlsx)) : io unit :=
  print (u "🚀 開始建立地圖...") ;;;
  let m := {| overlays := []; html_children := []; layer_control := false |} in
  (* county boundaries: except Exception as e: print *)
  there <- path_exists (county bg) ;;
  m <- match county bg with
       | Present r =>
         try_except (lift r ;;; ret (add_overlay (GeoJson (u "縣市邊界")) m))
                    (fun e => print (u "⚠️ 載入縣市邊界失敗: " ++ exn_str e) ;;; ret m)
       | _ => ret m
       end ;;
  (* industrial parks: except: pass *)
  there <- path_exists (industrial bg) ;;
  m <- match industrial bg with
       | Present r =>
         try_except (lift r ;;; ret (add_overlay (GeoJson (u "產業園區範圍")) m))
                    (fun _ => ret m)
       | _ => ret m
       end ;;
  there <- path_exists (school bg) ;;
  let fg_school := load_points (u "red") (school bg) in
  let m := add_overlay (FeatureGroup (u "學校") fg_school) m in
  there <- path_exists (center bg) ;;
  let fg_center := load_points (u "purple") (center bg) in
  let m := add_overlay (FeatureGroup (u "全台工業區中心點") fg_center) m in
  (* the scan *)
  let all_excels := glob_xlsx dir in
  print (u "📂 找到 " ++ int_str (Z.of_nat (List.length all_excels))
           ++ u " 個 Excel 檔，開始掃描...") ;;;
  scanned <- scan_targets all_excels [] 0 ;;
  let '(fg_target, count) := scanned in
  let m := add_overlay (FeatureGroup TARGET_GROUP fg_target) m in
  print (u "🎉 處理完成！共加入 " ++ int_str count ++ u " 個目標工業區。") ;;;
  let m := {| overlays := overlays m;
              html_children := html_children m ++ [feedback_js];
              layer_control := true |} in
  save OUTPUT_HTML m ;;;
  print (u "💾 地圖已存為 " ++ OUTPUT_HTML).

(** The exit status of the process: 0 when [main] returns, 1 when an
    exception leaves it. *)
Definition exit_code (r : result unit) : Z :=
  match r with
  | Ok _ => 0
  | Raise _ => 1
  end.

(** The markers of the target feature group of a composed map. *)
Definition target_markers (m : FoliumMap) : list Marker :=
  flat_map (fun o => match o with
                     | FeatureGroup n ms => if str_eqb n TARGET_GROUP then ms else []
                     | GeoJson _ => []
                     end) (overlays m).

End Program.

Arguments Absent {A}.
Arguments Inaccessible {A} e.

(** Unfolds the monad's operations. *)
Ltac io_unfold :=
  unfold bind, try_except, lift, ret, print in *.

End BuildMap.

Import BuildMap.

(* ================================================================== *)
(** ** Notions the statements use, and concrete inputs *)
(* ================================================================== *)

Module Spec.

(** A string without whitespace. *)
Definition no_space (s : str) : Prop := Forall (fun c => is_space c = false) s.

(** A string made of whitespace only. *)
Definition all_space (s : str) : Prop := Forall (fun c => is_space c = true) s.

(** A string that does not end in whitespace. *)
Definition ends_clean (s : str) : Prop :=
  forall init c, s = init ++ [c] -> is_space c = false.

(** *** What a slug is, in the words of the specification

    The allowed characters: word characters (alphanumeric or underscore),
    CJK ideographs U+4E00..U+9FFF, hyphen, underscore, dot. *)
Definition allowed_char (alnum : N -> bool) (c : N) : Prop :=
  alnum c = true \/ c = 95%N
  \/ (0x4e00 <= c /\ c <= 0x9fff)%N
  \/ c = 45%N \/ c = 46%N.

(** A character of the name and the character of the slug it gives: itself
    when it is allowed, an underscore otherwise. *)
Definition slug_char (alnum : N -> bool) (c o : N) : Prop :=
  (allowed_char alnum c /\ o = c) \/ (~ allowed_char alnum c /\ o = 95%N).

(** The slug of what follows a character of the name: trailing whitespace
    gives nothing, a character gives its slug character, and a run of
    whitespace before a character gives one underscore. *)
Inductive slug_after (alnum : N -> bool) : str -> str -> Prop :=
| after_blank (ws : str) :
    all_space ws -> slug_after alnum ws []
| after_char (c : N) (r : str) (oc : N) (o : str) :
    is_space c = false -> slug_char alnum c oc -> slug_after alnum r o ->
    slug_after alnum (c :: r) (oc :: o)
| after_run (w : N) (ws : str) (c : N) (r : str) (oc : N) (o : str) :
    is_space w = true -> all_space ws ->
    is_space c = false -> slug_char alnum c oc -> slug_after alnum r o ->
    slug_after alnum (w :: ws ++ c :: r) (95%N :: oc :: o).

(** The slug of a name: leading whitespace gives nothing, and the slug starts
    at the first character that is not whitespace. *)
Definition slug_of (alnum : N -> bool) (x y : str) : Prop :=
  (all_space x /\ y = [])
  \/ exists ws c r,
       all_space ws /\ is_space c = false /\ x = ws ++ c :: r
       /\ slug_after alnum (c :: r) y.

(** *** What a reader of the HTML finds

    The value of a double-quoted attribute whose text starts at [s]: the
    characters before the next double quote, if there is one. *)
Fixpoint quoted_value (s : str) : option str :=
  match s with
  | [] => None
  | c :: r =>
    if (c =? 34)%N then Some []
    else match quoted_value r with
         | Some v => Some (c :: v)
         | None => None
         end
  end.

(** Text without double quote and without ampersand. *)
Definition plain_value (v : str) : Prop :=
  Forall (fun c => c <> 34%N /\ c <> 38%N) v.

(** An attribute written as [v] between double quotes is read back as [v]:
    the value ends at the first double quote, whatever follows, and [v] has
    no ampersand, which would start a character reference. *)
Definition reads_back (v : str) : Prop :=
  (forall rest, quoted_value (v ++ [34%N] ++ rest) = Some v)
  /\ Forall (fun c => c <> 38%N) v.

(** The hidden element, as a browser is to find it. *)
Definition hidden_element (id park lat lon : str) : str :=
  t "<div id=`" ++ id ++ t "` data-park=`" ++ park
    ++ t "` data-lat=`" ++ lat ++ t "` data-lon=`" ++ lon
    ++ t "` style=`display:none;`></div>".

(** [lit] occurs in [s]. *)
Fixpoint starts_with (lit s : str) : bool :=
  match lit, s with
  | [], _ => true
  | a :: lit', b :: s' => (a =? b)%N && starts_with lit' s'
  | _ :: _, [] => false
  end.

Fixpoint occurs (lit s : str) : bool :=
  starts_with lit s
  || match s with
     | [] => false
     | _ :: r => occurs lit r
     end.

(** The text that follows the first occurrence of [lit] in [s]. *)
Fixpoint text_after (lit s : str) : option str :=
  if starts_with lit s then Some (skipn (List.length lit) s)
  else match s with
       | [] => None
       | _ :: r => text_after lit r
       end.

(** The value of the first attribute [name="..."] of a piece of HTML. *)
Definition attribute_value (name html : str) : option str :=
  match text_after (u " " ++ name ++ t "=`") html with
  | Some rest => quoted_value rest
  | None => None
  end.

(** The script looks the hidden element up by the id [meta_] + its argument
    and reads the three data attributes from it. *)
Definition reads_metadata (script : str) : Prop :=
  occurs (t "document.getElementById(`meta_`+pid)") script = true
  /\ occurs (u "meta.dataset.park") script = true
  /\ occurs (u "meta.dataset.lat") script = true
  /\ occurs (u "meta.dataset.lon") script = true.

(** The popup's button hands [slug] to the script. *)
Definition passes_slug (slug html : str) : Prop :=
  exists pre post, html = pre ++ u "sendFeedback('" ++ slug ++ u "')" ++ post.

Section Notions.

Context {R : Runtime}.

(** The record of lines 108-116, from the lookup [m] and what the routine
    has computed by then. *)
Definition record_of (m : dict) (name : str) (lon lat : float) (href : str)
  : ParkRecord :=
  {| park_name := name;
     lon := lon;
     lat := lat;
     monitoring_period := get_str m KEY_PERIOD NOT_FILLED;
     data_type := get_str m KEY_TYPE NOT_FILLED;
     note := get_str m KEY_NOTE NOT_FILLED;
     raw_page_href := href |}.

(** No row of the sheet has [key] in its first column. *)
Definition lacks_key (df : DataFrame) (key : str) : Prop :=
  Forall (fun row => is_str key (cell 0 row) = false) (rows df).

(** The records the extractor returns in the course of the scan, in file
    order: the loop of [main] without its markers. *)
Fixpoint extracted (files : list (str * xlsx)) (w : World) : list ParkRecord :=
  match files with
  | [] => []
  | (name, file) :: rest =>
    if str_in name EXCLUDE_FILES then extracted rest w
    else
      match read_park_xlsx name file OUTPUT_DIR w with
      | (w1, Ok (Some d)) =>
        d :: extracted rest (fst (print (u "  ✅ 成功載入: " ++ park_name d) w1))
      | (w1, _) => extracted rest w1
      end
  end.

(** The world in which the scan of [main] starts: the banner, the county
    warning if any, and the line that counts the spreadsheets. *)
Definition scan_start (bg : Background) (dir : list (str * xlsx)) (w : World) : World :=
  let w1 := fst (print (u "🚀 開始建立地圖...") w) in
  let w2 := match county bg with
            | Present (Raise e) =>
              fst (print (u "⚠️ 載入縣市邊界失敗: " ++ exn_str e) w1)
            | _ => w1
            end in
  fst (print (u "📂 找到 " ++ int_str (Z.of_nat (List.length (glob_xlsx dir)))
                ++ u " 個 Excel 檔，開始掃描...") w2).

(** The map once the four background layers have been loaded (lines
    154-194). *)
Definition background_map (bg : Background) : FoliumMap :=
  let m := {| overlays := []; html_children := []; layer_control := false |} in
  let m := match county bg with
           | Present (Ok _) => add_overlay (GeoJson (u "縣市邊界")) m
           | _ => m
           end in
  let m := match industrial bg with
           | Present (Ok _) => add_overlay (GeoJson (u "產業園區範圍")) m
           | _ => m
           end in
  let m := add_overlay (FeatureGroup (u "學校") (load_points (u "red") (school bg))) m in
  add_overlay (FeatureGroup (u "全台工業區中心點")
                            (load_points (u "purple") (center bg))) m.

(** [main] in two halves, for the proofs: from after the banner to the last
    background layer (lines 154-194), and from the scan on (lines 196-260)
    with the map the first half has built. *)
Definition background_phase (bg : Background) : io FoliumMap :=
  let m := {| overlays := []; html_children := []; layer_control := false |} in
  there <- path_exists (county bg) ;;
  m <- match county bg with
       | Present r =>
         try_except (lift r ;;; ret (add_overlay (GeoJson (u "縣市邊界")) m))
                    (fun e => print (u "⚠️ 載入縣市邊界失敗: " ++ exn_str e) ;;; ret m)
       | _ => ret m
       end ;;
  there <- path_exists (industrial bg) ;;
  m <- match industrial bg with
       | Present r =>
         try_except (lift r ;;; ret (add_overlay (GeoJson (u "產業園區範圍")) m))
                    (fun _ => ret m)
       | _ => ret m
       end ;;
  there <- path_exists (school bg) ;;
  let fg_school := load_points (u "red") (school bg) in
  let m := add_overlay (FeatureGroup (u "學校") fg_school) m in
  there <- path_exists (center bg) ;;
  let fg_center := load_points (u "purple") (center bg) in
  ret (add_overlay (FeatureGroup (u "全台工業區中心點") fg_center) m).

Definition scan_phase (m : FoliumMap) (dir : list (str * xlsx)) : io unit :=
  let all_excels := glob_xlsx dir in
  print (u "📂 找到 " ++ int_str (Z.of_nat (List.length all_excels))
           ++ u " 個 Excel 檔，開始掃描...") ;;;
  scanned <- scan_targets all_excels [] 0 ;;
  let '(fg_target, count) := scanned in
  let m := add_overlay (FeatureGroup TARGET_GROUP fg_target) m in
  print (u "🎉 處理完成！共加入 " ++ int_str count ++ u " 個目標工業區。") ;;;
  let m := {| overlays := overlays m;
              html_children := html_children m ++ [feedback_js];
              layer_control := true |} in
  save OUTPUT_HTML m ;;;
  print (u "💾 地圖已存為 " ++ OUTPUT_HTML).

(** The world after the county layer: its warning, if loading failed. *)
Definition county_world (bg : Background) (w : World) : World :=
  match county bg with
  | Present (Raise e) => fst (print (u "⚠️ 載入縣市邊界失敗: " ++ exn_str e) w)
  | _ => w
  end.

(** Every background path can be examined. *)
Definition accessible (bg : Background) : Prop :=
  (forall e, county bg <> Inaccessible e)
  /\ (forall e, industrial bg <> Inaccessible e)
  /\ (forall e, school bg <> Inaccessible e)
  /\ (forall e, center bg <> Inaccessible e).

(** The document [main] saves when the scan has filled the target group with
    [fg_target]. *)
Definition composed (bg : Background) (fg_target : list Marker) : FoliumMap :=
  {| overlays := overlays (background_map bg) ++ [FeatureGroup TARGET_GROUP fg_target];
     html_children := [feedback_js];
     layer_control := true |}.

Definition nan_error : exn :=
  Exn (u "ValueError") (u "Location values cannot contain NaNs.").

(** A popup carries the identifying metadata of a record: somewhere in it
    stands the hidden element whose id is [meta_] followed by the slug of the
    park name, with the name and the text of both coordinates as the data
    attributes [data-park], [data-lat] and [data-lon], each of which is read
    back as it was written. *)
Definition carries_metadata (d : ParkRecord) (html : str) : Prop :=
  let id := u "meta_" ++ safe_slug uni_alnum (park_name d) in
  (exists pre post,
     html = pre ++ hidden_element id (park_name d)
                                  (float_str (lat d)) (float_str (lon d)) ++ post)
  /\ reads_back id
  /\ reads_back (park_name d)
  /\ reads_back (float_str (lat d))
  /\ reads_back (float_str (lon d)).

(** Rows [a], [b] stand in non-decreasing order of column [i]: [b]'s key is
    missing (such rows come last), or both keys are present and ordered. *)
Definition non_decreasing (i : nat) (a b : list pyval) : Prop :=
  negb (notnull (cell i b))
  || (notnull (cell i a) && key_le (cell i a) (cell i b)) = true.

(** The order of two rows by their keys alone. *)
Definition keys_le (i : nat) (a b : list pyval) : Prop :=
  key_le (cell i a) (cell i b) = true.

(** The line [main] prints after the scan. *)
Definition count_line (count : Z) : str :=
  u "🎉 處理完成！共加入 " ++ int_str count ++ u " 個目標工業區。".

(** The comparison of [sort_values] is total on the values it accepts. *)
Definition sort_order_total : Prop :=
  forall col, sortable col = true ->
    forall a b, In a col -> In b col -> key_le a b = true \/ key_le b a = true.

End Notions.

(** *** A runtime to run the model with

    Letters and digits of ASCII as the alphanumeric table, integers as the
    only strings [float] parses and the only sortable keys, a plain table
    renderer, and a file system on which nothing fails. *)

Definition ascii_alnum (c : N) : bool :=
  ((48 <=? c) && (c <=? 57) || (65 <=? c) && (c <=? 90)
   || (97 <=? c) && (c <=? 122))%N.

Definition plain_float_str (f : float) : str :=
  match Prim2SF f with
  | S754_zero s => if s then u "-0.0" else u "0.0"
  | S754_infinity s => if s then u "-inf" else u "inf"
  | S754_nan => u "nan"
  | S754_finite s m e =>
    (if s then u "-" else []) ++ int_str (Zpos m) ++ u "*2**" ++ int_str e
  end.

Definition plain_float_of_str (s : str) : option float :=
  match NilZero.int_of_string (string_of_list_ascii (map ascii_of_N s)) with
  | Some d =>
    match float_of_int (Z.of_int d) with
    | Ok f => Some f
    | Raise _ => None
    end
  | None => None
  end.

Definition is_int (v : pyval) : bool :=
  match v with
  | PyInt _ => true
  | _ => false
  end.

Definition int_le (a b : pyval) : bool :=
  match a, b with
  | PyInt x, PyInt y => (x <=? y)%Z
  | _, _ => true
  end.

Section PlainTable.

Variable cell_str : pyval -> str.

Definition plain_row (tag : str) (cells : list pyval) : str :=
  u "<tr>"
  ++ flat_map (fun v => u "<" ++ tag ++ u ">" ++ cell_str v ++ u "</" ++ tag ++ u ">") cells
  ++ u "</tr>".

Definition plain_table (df : DataFrame) : str :=
  u "<table>" ++ plain_row (u "th") (columns df)
  ++ flat_map (plain_row (u "td")) (rows df) ++ u "</table>".

End PlainTable.

Definition plain_cell_str (v : pyval) : str :=
  match v with
  | PyNone => u "None"
  | PyStr s => s
  | PyFloat f => plain_float_str f
  | PyInt z => int_str z
  | PyBool b => if b then u "True" else u "False"
  | PyObj r => r
  end.

#[local] Instance plain_runtime : Runtime := {|
  uni_alnum := ascii_alnum;
  float_str := plain_float_str;
  float_of_str := plain_float_of_str;
  to_html := fun df => Ok (plain_table plain_cell_str df);
  key_le := int_le;
  sortable := forallb is_int;
  fs_mkdir := fun _ _ => None;
  fs_write := fun _ _ => None;
  fs_cut := fun _ _ _ => None
|}.

(** The same runtime on a disk that refuses every write. *)
#[local] Instance readonly_runtime : Runtime := {|
  uni_alnum := ascii_alnum;
  float_str := plain_float_str;
  float_of_str := plain_float_of_str;
  to_html := fun df => Ok (plain_table plain_cell_str df);
  key_le := int_le;
  sortable := forallb is_int;
  fs_mkdir := fun _ _ => None;
  fs_write := fun _ _ => Some (Exn (u "PermissionError") (u "Permission denied"));
  fs_cut := fun _ _ _ => None
|}.

(** *** Concrete spreadsheets *)

Definition header : list pyval := [PyStr (u "項目"); PyStr (u "內容")].

Definition basic_df (kvs : list (str * pyval)) : DataFrame :=
  {| columns := header;
     rows := map (fun kv => [PyStr (fst kv); snd kv]) kvs |}.

Definition basic_sheet (kvs : list (str * pyval)) : str * result DataFrame :=
  (SHEET_BASIC, Ok (basic_df kvs)).

(** The valid target file of the specification's scenario. *)
Definition demo_info : list (str * pyval) :=
  [(KEY_NAME, PyStr (u "示範園區"));
   (KEY_LON, PyFloat 120.3%float);
   (KEY_LAT, PyFloat 23.5%float)].

Definition demo_park : xlsx := Workbook [basic_sheet demo_info].

(** A spreadsheet without the basic-info sheet. *)
Definition unrelated : xlsx :=
  Workbook [(u "Sheet1", Ok {| columns := [PyStr (u "a")]; rows := [[PyInt 1]] |})].

(** A target file whose latitude cell is empty. *)
Definition blank_info : list (str * pyval) :=
  [(KEY_NAME, PyStr (u "示範園區"));
   (KEY_LON, PyFloat 120.3%float);
   (KEY_LAT, nan_cell)].

Definition blank_latitude : xlsx := Workbook [basic_sheet blank_info].

(** A target file whose latitude is text. *)
Definition text_latitude : xlsx :=
  Workbook [basic_sheet [(KEY_NAME, PyStr (u "示範園區"));
                         (KEY_LON, PyFloat 120.3%float);
                         (KEY_LAT, PyStr (u "north"))]].

(** A target file with a measurement sheet of three rows, out of order. *)
Definition measured_sheet : str * result DataFrame :=
  (SHEET_MEAS,
   Ok {| columns := [PyStr (u "StartTime"); PyStr (u "PM25")];
         rows := [[PyInt 3; PyInt 30]; [PyInt 1; PyInt 10]; [PyInt 2; PyInt 20]] |}).

Definition measured_park : xlsx :=
  Workbook [basic_sheet demo_info; measured_sheet].

(** A target file whose measurement sheet cannot be read. *)
Definition broken_sheet : str * result DataFrame :=
  (SHEET_MEAS, Raise (Exn (u "BadZipFile") (u "File is not a zip file"))).

Definition broken_measurements : xlsx :=
  Workbook [basic_sheet demo_info; broken_sheet].

(** A target file whose park name holds a double quote. *)
Definition quoted_info : list (str * pyval) :=
  [(KEY_NAME, PyStr (t "A`B"));
   (KEY_LON, PyFloat 120.3%float);
   (KEY_LAT, PyFloat 23.5%float)].

Definition quoted_park : xlsx := Workbook [basic_sheet quoted_info].

Definition quoted_record : ParkRecord :=
  {| park_name := t "A`B";
     lon := 120.3%float;
     lat := 23.5%float;
     monitoring_period := NOT_FILLED;
     data_type := NOT_FILLED;
     note := NOT_FILLED;
     raw_page_href := [] |}.

(** A target file without a name row. *)
Definition unnamed_info : list (str * pyval) :=
  [(KEY_LON, PyFloat 120.3%float); (KEY_LAT, PyFloat 23.5%float)].

(** A file whose name holds an undecodable byte, which Python keeps as a
    lone surrogate; the workbook has no name row and a measurement sheet that
    cannot be read. *)
Definition stray_path : str := [0xDCFF%N] ++ u ".xlsx".

Definition stray_sheets : list (str * result DataFrame) :=
  [basic_sheet unnamed_info; broken_sheet].

Definition no_background : Background :=
  {| county := Absent; industrial := Absent; school := Absent; center := Absent |}.

End Spec.

Import Spec.

(* ================================================================== *)
(** ** Further notions, for the properties beyond the specification *)
(* ================================================================== *)

Module MoreSpec.

(** The test of line 206, on an entry of the directory. *)
Definition not_excluded (e : str * xlsx) : bool :=
  negb (str_in (fst e) EXCLUDE_FILES).

(** Every marker of a map, over all its feature groups. *)
Definition all_markers (m : FoliumMap) : list Marker :=
  flat_map (fun o => match o with
                     | FeatureGroup _ ms => ms
                     | GeoJson _ => []
                     end) (overlays m).

(** Neither coordinate of the marker is a NaN. *)
Definition no_nan (mk : Marker) : Prop :=
  is_nan (fst (location mk)) = false /\ is_nan (snd (location mk)) = false.

(** A row of a point sheet whose two coordinate cells hold floats (an empty
    cell holds NaN). *)
Definition float_row (p : float * float * pyval) : PointRow :=
  {| row_lat := PyFloat (fst (fst p));
     row_lon := PyFloat (snd (fst p));
     row_name := snd p |}.

Definition both_present (p : float * float * pyval) : bool :=
  negb (is_nan (fst (fst p))) && negb (is_nan (snd (fst p))).

(** The GeoJSON layers of a background: each is there when its loading went
    through. *)
Definition geo_layers (bg : Background) : list Overlay :=
  match county bg with
  | Present (Ok _) => [GeoJson (u "縣市邊界")]
  | _ => []
  end
  ++ match industrial bg with
     | Present (Ok _) => [GeoJson (u "產業園區範圍")]
     | _ => []
     end.

(** The field a present value gives (lines 64-65). *)
Definition shown_value {R : Runtime} (v : pyval) : str :=
  match v with
  | PyNone => []
  | _ => py_str v
  end.

(** The path of the detail page of the park [name] under the directory
    [dir]: the slug of the name followed by the fixed suffix. *)
Definition detail_path {R : Runtime} (dir name : str) : str :=
  dir ++ u "/" ++ safe_slug uni_alnum name ++ u "_量測資料.html".

(** The path of a detail page: in the directory [data], the page of some
    park name. *)
Definition is_detail_path {R : Runtime} (p : str) : Prop :=
  exists name, p = u "data/" ++ safe_slug uni_alnum name ++ u "_量測資料.html".

(** A detail page for the park [name] with the table [table]: an HTML
    document with the name in its title and the table further down. *)
Definition detail_document (name table content : str) : Prop :=
  starts_with (u "<!doctype html>") content = true
  /\ exists pre mid post,
       content = pre ++ u "<title>" ++ name ++ u " - 量測資料</title>"
                     ++ mid ++ table ++ post.

(** The popup holds an anchor to [href] that opens in a new tab. *)
Definition links_to (href html : str) : Prop :=
  exists pre post,
    html = pre ++ t "<a href=`" ++ href ++ t "` target=`_blank`" ++ post.

(** *** Concrete inputs *)

(** A target file whose note cell is empty and whose period is a number. *)
Definition sparse_info : list (str * pyval) :=
  [(KEY_NAME, PyStr (u "示範園區"));
   (KEY_LON, PyFloat 120.3%float);
   (KEY_LAT, PyFloat 23.5%float);
   (KEY_PERIOD, PyInt 2024);
   (KEY_NOTE, nan_cell)].

(** A school sheet: a good row, a row whose latitude is text, a good row. *)
Definition school_rows_good : list PointRow :=
  [{| row_lat := PyFloat 25.0%float; row_lon := PyFloat 121.5%float;
      row_name := PyStr (u "A") |}].

Definition school_row_bad : PointRow :=
  {| row_lat := PyStr (u "north"); row_lon := PyFloat 121.5%float;
     row_name := PyStr (u "B") |}.

Definition school_rows_rest : list PointRow :=
  [{| row_lat := PyFloat 24.0%float; row_lon := PyFloat 120.5%float;
      row_name := PyStr (u "C") |}].

Definition scenario_dir : list (str * xlsx) :=
  [(u "park.xlsx", demo_park); (u "other.xlsx", unrelated)].

End MoreSpec.

Import MoreSpec.
(* ================================================================== *)
(** ** Properties of [safe_slug] *)
(* ================================================================== *)

Module SlugFacts.

Lemma underscore_not_space : is_space underscore = false.
Proof. reflexivity. Qed.

Lemma sub_space_runs_no_space (s : str) :
  forall b, no_space (sub_space_runs b s).
Proof.
  induction s as [|c r IH]; intros b; simpl.
  - constructor.
  - destruct (is_space c) eqn:Hc.
    + destruct b; [apply IH|]. constructor; [apply underscore_not_space | apply IH].
    + constructor; [exact Hc | apply IH].
Qed.

Lemma sub_space_runs_id (s : str) :
  no_space s -> forall b, sub_space_runs b s = s.
Proof.
  induction 1 as [|c r Hc _ IH]; intros b; simpl; [reflexivity|].
  rewrite Hc, IH. reflexivity.
Qed.

Lemma lstrip_id (s : str) : no_space s -> lstrip s = s.
Proof.
  destruct 1 as [|c r Hc _]; simpl; [reflexivity|]. now rewrite Hc.
Qed.

Lemma no_space_rev (s : str) : no_space s -> no_space (rev s).
Proof. unfold no_space. apply Forall_rev. Qed.

Lemma strip_id (s : str) : no_space s -> strip s = s.
Proof.
  intros H. unfold strip.
  rewrite (lstrip_id H), (lstrip_id (no_space_rev H)). apply rev_involutive.
Qed.

Section WithTable.

Variable uni_alnum : N -> bool.

Lemma underscore_allowed : slug_allowed uni_alnum underscore = true.
Proof.
  unfold slug_allowed, is_word. rewrite N.eqb_refl.
  now rewrite !orb_true_r.
Qed.

Lemma sub_disallowed_allowed (s : str) :
  Forall (fun c => slug_allowed uni_alnum c = true) (sub_disallowed uni_alnum s).
Proof.
  induction s as [|c r IH]; simpl; constructor; auto.
  destruct (slug_allowed uni_alnum c) eqn:Hc; [exact Hc | apply underscore_allowed].
Qed.

Lemma sub_disallowed_no_space (s : str) :
  no_space s -> no_space (sub_disallowed uni_alnum s).
Proof.
  induction 1 as [|c r Hc _ IH]; simpl; constructor; auto.
  destruct (slug_allowed uni_alnum c); [exact Hc | apply underscore_not_space].
Qed.

Lemma sub_disallowed_id (s : str) :
  Forall (fun c => slug_allowed uni_alnum c = true) s ->
  sub_disallowed uni_alnum s = s.
Proof.
  induction 1 as [|c r Hc _ IH]; simpl; [reflexivity|].
  now rewrite Hc, IH.
Qed.

Lemma safe_slug_no_space (x : str) : no_space (safe_slug uni_alnum x).
Proof.
  unfold safe_slug. apply sub_disallowed_no_space, sub_space_runs_no_space.
Qed.

Lemma safe_slug_allowed (x : str) :
  Forall (fun c => slug_allowed uni_alnum c = true) (safe_slug uni_alnum x).
Proof. unfold safe_slug. apply sub_disallowed_allowed. Qed.

End WithTable.

(** *** The slug against its description *)

Lemma lstrip_split (s : str) :
  exists ws, all_space ws /\ s = ws ++ lstrip s.
Proof.
  induction s as [|c r IH]; simpl.
  - exists []. split; [constructor | reflexivity].
  - destruct (is_space c) eqn:Hc.
    + destruct IH as (ws & Hws & Hr). exists (c :: ws). split.
      * now constructor.
      * simpl. now rewrite <- Hr.
    + exists []. split; [constructor | reflexivity].
Qed.

Lemma lstrip_head (s : str) (c : N) (r : str) :
  lstrip s = c :: r -> is_space c = false.
Proof.
  induction s as [|x s IH]; simpl; [discriminate|].
  destruct (is_space x) eqn:Hx; [exact IH|]. now intros [= <- _].
Qed.

Lemma lstrip_nil_all_space (s : str) : lstrip s = [] -> all_space s.
Proof.
  intros H. destruct (lstrip_split s) as (ws & Hws & Hs).
  rewrite H, app_nil_r in Hs. now subst.
Qed.

Lemma ends_clean_tail (c : N) (r : str) : ends_clean (c :: r) -> ends_clean r.
Proof. intros H init x ->. exact (H (c :: init) x eq_refl). Qed.

Lemma ends_clean_skip (a b : str) : ends_clean (a ++ b) -> ends_clean b.
Proof.
  induction a as [|c a IH]; [trivial|]. intros H. apply IH.
  exact (ends_clean_tail H).
Qed.

Lemma ends_clean_not_blank (c : N) (r : str) :
  ends_clean (c :: r) -> all_space (c :: r) -> False.
Proof.
  intros Hc Hs. destruct (exists_last (l := c :: r)) as (init & x & Hx);
    [discriminate|].
  pose proof (Hc init x Hx) as Hn.
  unfold all_space in Hs. rewrite Hx, Forall_app in Hs.
  destruct Hs as [_ Hs]. inversion Hs; congruence.
Qed.

(** The text between the outer whitespace. *)
Lemma strip_split (s : str) :
  exists ws, all_space ws /\ lstrip s = strip s ++ ws /\ ends_clean (strip s).
Proof.
  destruct (lstrip_split (rev (lstrip s))) as (ws & Hws & Hr).
  exists (rev ws). split; [apply Forall_rev, Hws|]. split.
  - unfold strip. rewrite <- rev_app_distr, <- Hr. symmetry. apply rev_involutive.
  - unfold strip. intros init c Hc.
    apply (f_equal (@rev N)) in Hc.
    rewrite rev_involutive, rev_app_distr in Hc. simpl in Hc.
    exact (lstrip_head _ Hc).
Qed.

Lemma sub_space_runs_in_run (ws s : str) :
  all_space ws -> sub_space_runs true (ws ++ s) = sub_space_runs true s.
Proof.
  induction 1 as [|c ws Hc _ IH]; simpl; [reflexivity|]. now rewrite Hc.
Qed.

Section Described.

Variable uni_alnum : N -> bool.

Lemma slug_allowed_spec (c : N) :
  slug_allowed uni_alnum c = true <-> allowed_char uni_alnum c.
Proof.
  unfold slug_allowed, is_word, allowed_char, underscore.
  rewrite !orb_true_iff, andb_true_iff, !N.eqb_eq, !N.leb_le. tauto.
Qed.

Lemma slug_char_shown (c : N) :
  slug_char uni_alnum c (if slug_allowed uni_alnum c then c else underscore).
Proof.
  unfold slug_char. destruct (slug_allowed uni_alnum c) eqn:Hc.
  - left. split; [now apply slug_allowed_spec | reflexivity].
  - right. split; [|reflexivity]. intros H. apply slug_allowed_spec in H. congruence.
Qed.

Lemma slug_after_core (n : nat) :
  forall core ws,
    List.length core <= n -> ends_clean core -> all_space ws ->
    slug_after uni_alnum (core ++ ws)
               (sub_disallowed uni_alnum (sub_space_runs false core)).
Proof.
  induction n as [|n IH]; intros core ws Hn Hc Hws.
  - destruct core; [|simpl in Hn; lia]. simpl. now constructor.
  - destruct core as [|c r]; [simpl; now constructor|].
    simpl in Hn. simpl sub_space_runs. destruct (is_space c) eqn:Hsp.
    + destruct (lstrip_split r) as (run & Hrun & Hr).
      destruct (lstrip r) as [|c' r'] eqn:Hl.
      * exfalso. apply (ends_clean_not_blank Hc).
        constructor; [exact Hsp|]. rewrite Hr, app_nil_r. exact Hrun.
      * pose proof (lstrip_head _ Hl) as Hc'.
        rewrite Hr. rewrite (sub_space_runs_in_run _ Hrun). simpl.
        rewrite Hc'. simpl. rewrite underscore_allowed.
        rewrite <- app_assoc. simpl.
        apply after_run; try assumption; [apply slug_char_shown|].
        apply IH; [|  | exact Hws].
        -- rewrite Hr, length_app in Hn. simpl in Hn. lia.
        -- apply ends_clean_tail with (c := c').
           apply ends_clean_skip with (a := c :: run).
           simpl. now rewrite <- Hr.
    + simpl. apply after_char; [exact Hsp | apply slug_char_shown |].
      apply IH; [lia | exact (ends_clean_tail Hc) | exact Hws].
Qed.

Lemma safe_slug_described (x : str) : slug_of uni_alnum x (safe_slug uni_alnum x).
Proof.
  destruct (lstrip_split x) as (ws1 & Hws1 & Hx).
  destruct (strip_split x) as (ws2 & Hws2 & Hl & Hclean).
  destruct (lstrip x) as [|c r] eqn:Hlx.
  - left. split; [now apply lstrip_nil_all_space|].
    unfold safe_slug, strip. now rewrite Hlx.
  - right. exists ws1, c, r. split; [exact Hws1|].
    split; [exact (lstrip_head _ Hlx)|]. split; [exact Hx|].
    rewrite Hl. unfold safe_slug.
    now apply slug_after_core with (n := List.length (strip x)).
Qed.

End Described.

(** C4. Slug derivation is idempotent; every character of a slug lies in the
    allowed set (word characters, CJK ideographs U+4E00..U+9FFF, hyphen,
    underscore, dot) and none is whitespace; and the slug is the name read
    from its first to its last character that is not whitespace, in which
    each run of whitespace has become one underscore, each other character
    outside the allowed set has become an underscore, and the allowed
    characters stand as they were.  This holds for every input string and
    whatever the Unicode alphanumeric table is. *)
Theorem safe_slug_idempotent_and_safe (uni_alnum : N -> bool) (x : str) :
  safe_slug uni_alnum (safe_slug uni_alnum x) = safe_slug uni_alnum x
  /\ Forall (fun c => slug_allowed uni_alnum c = true) (safe_slug uni_alnum x)
  /\ Forall (fun c => is_space c = false) (safe_slug uni_alnum x)
  /\ Forall (allowed_char uni_alnum) (safe_slug uni_alnum x)
  /\ slug_of uni_alnum x (safe_slug uni_alnum x).
Proof.
  pose proof (safe_slug_no_space uni_alnum x) as Hs.
  pose proof (safe_slug_allowed uni_alnum x) as Ha.
  split; [|split; [exact Ha|split; [exact Hs|split]]].
  - set (y := safe_slug uni_alnum x) in *.
    unfold safe_slug at 1.
    rewrite (strip_id Hs), (sub_space_runs_id Hs).
    now apply sub_disallowed_id.
  - eapply Forall_impl; [|exact Ha]. intros c Hc. now apply slug_allowed_spec.
  - apply safe_slug_described.
Qed.

(** The description determines the slug: on a name between two tabs, with a
    double space and a slash in it. *)
Example slug_of_demo :
  safe_slug ascii_alnum ([9%N] ++ u "A  b/c" ++ [9%N]) = u "A_b_c".
Proof. reflexivity. Qed.

End SlugFacts.


(* ================================================================== *)
(** ** Properties of the extractor, [read_park_xlsx] *)
(* ================================================================== *)

Module ExtractorFacts.

(** *** Printing *)

Lemma encodable_app (a b : str) : encodable (a ++ b) = encodable a && encodable b.
Proof. unfold encodable. rewrite existsb_app. now destruct (existsb _ a). Qed.

Lemma print_ok (line : str) (w : World) :
  encodable line = true ->
  print line w = ({| stdout := stdout w ++ [line];
                     written := written w; saved := saved w |}, Ok tt).
Proof. intros H. unfold print. now rewrite H. Qed.

Lemma print_then (A : Type) (line : str) (k : io A) (w : World) :
  (print line ;;; k) w
  = if encodable line
    then k {| stdout := stdout w ++ [line]; written := written w; saved := saved w |}
    else (w, Raise encode_error).
Proof. unfold bind, print. now destruct (encodable line). Qed.

(** Splits a hypothesis on whether the warning it prints can be printed. *)
Ltac warned H :=
  rewrite print_then in H; unfold ret in H;
  match type of H with
  | context [encodable ?l] => destruct (encodable l) eqn:?
  end.

(** Splits the goal on whether the line it prints can be printed. *)
Ltac printed He :=
  match goal with
  | |- context [if encodable ?l then _ else _] => destruct (encodable l) eqn:He
  end.

(** A goal whose routine ends on a warning and [None]. *)
Ltac turned_down :=
  rewrite print_then; unfold ret;
  match goal with
  | |- context [if encodable ?l then _ else _] => destruct (encodable l)
  end; discriminate.

Section WithRuntime.

Context {R : Runtime}.

(** What the first [try] block decides. *)
Lemma read_park_xlsx_not_loaded (path : str) (file : xlsx) (data_dir : str) (w : World) :
  (forall sheets m, load_basic_info file <> Ok (Some (sheets, m))) ->
  read_park_xlsx path file data_dir w = (w, Ok None).
Proof.
  intros H. unfold read_park_xlsx. io_unfold.
  destruct (load_basic_info file) as [[[sheets m]|]|e]; try reflexivity.
  now destruct (H sheets m).
Qed.

Lemma scan_targets_cons (name : str) (file : xlsx) (rest : list (str * xlsx))
  (fg : list Marker) (count : Z) :
  scan_targets ((name, file) :: rest) fg count
  = if str_in name EXCLUDE_FILES then scan_targets rest fg count
    else
      data <- read_park_xlsx name file OUTPUT_DIR ;;
      match data with
      | Some d =>
        print (u "  ✅ 成功載入: " ++ park_name d) ;;;
        mk <- lift (target_marker d) ;;
        scan_targets rest (fg ++ [mk]) (count + 1)
      | None => scan_targets rest fg count
      end.
Proof. reflexivity. Qed.

(** A file the extractor turns down without a word is skipped by the scan:
    the loop goes on to the next file in the same world. *)
Lemma scan_skips (path : str) (file : xlsx) (w : World) :
  read_park_xlsx path file OUTPUT_DIR w = (w, Ok None) ->
  forall rest fg count,
    scan_targets ((path, file) :: rest) fg count w = scan_targets rest fg count w.
Proof.
  intros H rest fg count. rewrite scan_targets_cons.
  destruct (str_in path EXCLUDE_FILES); [reflexivity|].
  unfold bind at 1. now rewrite H.
Qed.

(** What the routine does once the first [try] block has produced the
    lookup [m]. *)
Lemma read_park_xlsx_loaded (path : str) (file : xlsx) (data_dir : str) (w : World)
  (sheets : list (str * result DataFrame)) (m : dict) :
  load_basic_info file = Ok (Some (sheets, m)) ->
  read_park_xlsx path file data_dir w =
  let name := get_str m KEY_NAME (stem path) in
  match py_float (m_get m KEY_LON) with
  | Raise _ => (print (coord_warning name path) ;;; ret None) w
  | Ok flon =>
    match py_float (m_get m KEY_LAT) with
    | Raise _ => (print (coord_warning name path) ;;; ret None) w
    | Ok flat =>
      if str_in SHEET_MEAS (sheet_names sheets) then
        match write_detail_page sheets name data_dir w with
        | (w1, Ok href) => (w1, Ok (Some (record_of m name flon flat href)))
        | (w1, Raise e) =>
          (print (meas_warning name e) ;;;
           ret (Some (record_of m name flon flat []))) w1
        end
      else (w, Ok (Some (record_of m name flon flat [])))
    end
  end.
Proof.
  intros H. unfold read_park_xlsx. unfold bind, try_except, lift, ret.
  rewrite H. cbv zeta.
  destruct (py_float (m_get m KEY_LON)) as [flon|e1];
    [|destruct (print _ w) as [w1 [[]|e]]; reflexivity].
  destruct (py_float (m_get m KEY_LAT)) as [flat|e2];
    [|destruct (print _ w) as [w1 [[]|e]]; reflexivity].
  destruct (str_in SHEET_MEAS (sheet_names sheets)); [|reflexivity].
  unfold write_detail_page, bind, lift, ret.
  destruct (read_excel sheets SHEET_MEAS);
    [|destruct (print _ w) as [w1 [[]|e']]; reflexivity].
  destruct (if has_column _ _ then _ else _);
    [|destruct (print _ w) as [w1 [[]|e']]; reflexivity].
  destruct (mkdir data_dir w) as [w1 [[]|e]];
    [|destruct (print _ w1) as [w2 [[]|e']]; reflexivity].
  destruct (to_html _);
    [|destruct (print _ w1) as [w2 [[]|e']]; reflexivity].
  destruct (write_text _ _ w1) as [w2 [[]|e]]; [reflexivity|].
  destruct (print _ w2) as [w3 [[]|e']]; reflexivity.
Qed.

(** The first [try] block on a workbook, read off the basic-info sheet. *)
Lemma load_basic_info_workbook (sheets : list (str * result DataFrame))
  (sh : list (str * result DataFrame)) (m : dict) :
  load_basic_info (Workbook sheets) = Ok (Some (sh, m)) ->
  sh = sheets
  /\ exists df, read_excel sheets SHEET_BASIC = Ok df /\ m = to_dict df
                /\ 2 <= List.length (columns df).
Proof.
  simpl. destruct (str_in SHEET_BASIC (sheet_names sheets)); simpl; [|discriminate].
  destruct (read_excel sheets SHEET_BASIC) as [df|e]; [|discriminate].
  destruct (columns df) as [|c0 [|c1 cs]] eqn:Hc; simpl; try discriminate.
  intros [= <- <-]. split; [reflexivity|]. exists df. rewrite Hc. simpl.
  repeat split; lia.
Qed.

Lemma dict_get_lacks (df : DataFrame) (key : str) :
  lacks_key df key -> dict_get (to_dict df) key = None.
Proof.
  unfold lacks_key, to_dict. induction 1 as [|row rs Hrow _ IH]; simpl; [reflexivity|].
  now rewrite IH, Hrow.
Qed.

(** The second [try] block never touches the saved documents. *)
Lemma write_detail_page_saved (sheets : list (str * result DataFrame))
  (name data_dir : str) (w : World) :
  saved (fst (write_detail_page sheets name data_dir w)) = saved w.
Proof.
  unfold write_detail_page, mkdir, write_text, leave_file. io_unfold.
  destruct (read_excel sheets SHEET_MEAS); [|reflexivity].
  destruct (if has_column _ _ then _ else _); [|reflexivity].
  destruct (fs_mkdir w data_dir); [reflexivity|].
  destruct (to_html _); [|reflexivity].
  destruct (fs_write w _); [reflexivity|].
  destruct (encodable _); [|reflexivity].
  destruct (fs_cut w _ _) as [[e n]|]; reflexivity.
Qed.

(** The routine returns, or is left by the exception of a warning that
    cannot be printed; it never touches the saved documents. *)
Lemma read_park_xlsx_outcome (path : str) (file : xlsx) (data_dir : str) (w : World) :
  exists w' r, read_park_xlsx path file data_dir w = (w', r)
               /\ saved w' = saved w
               /\ (r = Raise encode_error \/ exists o, r = Ok o).
Proof.
  destruct (load_basic_info file) as [[[sheets m]|]|e] eqn:Hl.
  - rewrite (@read_park_xlsx_loaded path _ data_dir w _ _ Hl). cbv zeta.
    destruct (py_float (m_get m KEY_LON)).
    2: { rewrite print_then. destruct (encodable _); eexists _, _;
         (split; [reflexivity|]); split; try reflexivity; eauto. }
    destruct (py_float (m_get m KEY_LAT)).
    2: { rewrite print_then. destruct (encodable _); eexists _, _;
         (split; [reflexivity|]); split; try reflexivity; eauto. }
    destruct (str_in SHEET_MEAS (sheet_names sheets));
      [|eexists _, _; split; [reflexivity|]; split; [reflexivity | eauto]].
    pose proof (write_detail_page_saved sheets (get_str m KEY_NAME (stem path))
                                        data_dir w) as Hw.
    destruct (write_detail_page sheets _ data_dir w) as [w1 [href|e]].
    + eexists _, _. split; [reflexivity|]. split; [exact Hw | eauto].
    + rewrite print_then. destruct (encodable _); eexists _, _;
        (split; [reflexivity|]); (split; [exact Hw|]); eauto.
  - exists w, (Ok None). split; [|split; [reflexivity | eauto]].
    apply read_park_xlsx_not_loaded. intros sh m. rewrite Hl. discriminate.
  - exists w, (Ok None). split; [|split; [reflexivity | eauto]].
    apply read_park_xlsx_not_loaded. intros sh m. rewrite Hl. discriminate.
Qed.

(** The part of the coordinate check that works: when [float] raises on
    either value (the key has no row, or the cell holds text, a date, ...),
    the record is rejected and one warning names the park and the file,
    provided that warning can be printed. *)
Lemma unconvertible_coordinates_rejected (path : str) (file : xlsx) (data_dir : str)
  (w : World) (sheets : list (str * result DataFrame)) (m : dict) :
  load_basic_info file = Ok (Some (sheets, m)) ->
  (exists e, py_float (m_get m KEY_LON) = Raise e)
  \/ (exists e, py_float (m_get m KEY_LAT) = Raise e) ->
  encodable (coord_warning (get_str m KEY_NAME (stem path)) path) = true ->
  let w' := {| stdout := stdout w
                        ++ [coord_warning (get_str m KEY_NAME (stem path)) path];
              written := written w; saved := saved w |} in
  read_park_xlsx path file data_dir w = (w', Ok None)
  /\ (data_dir = OUTPUT_DIR ->
      forall rest fg count,
        scan_targets ((path, file) :: rest) fg count w
        = if str_in path EXCLUDE_FILES then scan_targets rest fg count w
          else scan_targets rest fg count w').
Proof.
  intros Hl H Henc w'.
  assert (Hr : read_park_xlsx path file data_dir w = (w', Ok None)).
  { rewrite (@read_park_xlsx_loaded path _ data_dir w _ _ Hl). cbv zeta.
    destruct H as [[e He]|[e He]].
    - rewrite He, print_then, Henc. reflexivity.
    - rewrite He. destruct (py_float (m_get m KEY_LON));
        rewrite print_then, Henc; reflexivity. }
  split; [exact Hr|]. intros -> rest fg count. rewrite scan_targets_cons.
  destruct (str_in path EXCLUDE_FILES); [reflexivity|].
  unfold bind at 1. now rewrite Hr.
Qed.

End WithRuntime.

(** C3. A spreadsheet that cannot be opened, or that has no sheet named
    工業區基本資料, is not a target: the per-file routine returns [None]
    without raising, prints nothing and writes nothing (the world is
    unchanged), and the scan goes on to the next file. *)
Theorem non_target_skipped_silently {R : Runtime}
  (path : str) (file : xlsx) (w : World) :
  (exists e, file = Unreadable e)
  \/ (exists sheets, file = Workbook sheets
                     /\ str_in SHEET_BASIC (sheet_names sheets) = false) ->
  (forall data_dir, read_park_xlsx path file data_dir w = (w, Ok None))
  /\ (forall rest fg count,
        scan_targets ((path, file) :: rest) fg count w
        = scan_targets rest fg count w).
Proof.
  intros H.
  assert (Hn : forall data_dir, read_park_xlsx path file data_dir w = (w, Ok None)).
  { intros data_dir. apply read_park_xlsx_not_loaded. intros sheets m.
    destruct H as [[e ->]|[sh [-> Hs]]]; simpl; [discriminate|].
    rewrite Hs. simpl. discriminate. }
  split; [exact Hn | apply scan_skips, Hn].
Qed.

(** The theorem above at the spreadsheet without the basic-info sheet. *)
Lemma non_target_skipped_silently_witness :
  (forall data_dir,
     read_park_xlsx (R := plain_runtime) (u "b.xlsx") unrelated data_dir world0
     = (world0, Ok None))
  /\ (forall rest fg count,
        scan_targets (R := plain_runtime) ((u "b.xlsx", unrelated) :: rest) fg count world0
        = scan_targets (R := plain_runtime) rest fg count world0).
Proof.
  apply (non_target_skipped_silently (R := plain_runtime) (u "b.xlsx") world0).
  right. eexists. split; reflexivity.
Defined.

(** C10. A workbook that has the basic-info sheet, but with fewer than two
    columns in it, is turned down exactly like a non-target file: the failed
    column access is caught by the first handler, so the routine returns
    [None], no warning is printed (the world is unchanged), and the scan goes
    on. *)
Theorem narrow_basic_sheet_skipped_silently {R : Runtime}
  (path : str) (sheets : list (str * result DataFrame)) (df : DataFrame) (w : World) :
  str_in SHEET_BASIC (sheet_names sheets) = true ->
  read_excel sheets SHEET_BASIC = Ok df ->
  List.length (columns df) < 2 ->
  (forall data_dir, read_park_xlsx path (Workbook sheets) data_dir w = (w, Ok None))
  /\ (forall rest fg count,
        scan_targets ((path, Workbook sheets) :: rest) fg count w
        = scan_targets rest fg count w).
Proof.
  intros Hs Hr Hc.
  assert (Hn : forall data_dir,
             read_park_xlsx path (Workbook sheets) data_dir w = (w, Ok None)).
  { intros data_dir. apply read_park_xlsx_not_loaded. intros sh m. simpl.
    rewrite Hs, Hr. simpl.
    destruct (columns df) as [|c0 [|c1 cs]]; simpl in *; try discriminate; lia. }
  split; [exact Hn | apply scan_skips, Hn].
Qed.

(** The theorem above at a workbook whose basic-info sheet has a single column. *)
Lemma narrow_basic_sheet_skipped_silently_witness :
  let sheets := [(SHEET_BASIC, Ok {| columns := [PyStr (u "項目")];
                                     rows := [[PyStr KEY_NAME]] |})] in
  (forall data_dir,
     read_park_xlsx (R := plain_runtime) (u "c.xlsx") (Workbook sheets) data_dir world0
     = (world0, Ok None))
  /\ (forall rest fg count,
        scan_targets (R := plain_runtime) ((u "c.xlsx", Workbook sheets) :: rest)
                     fg count world0
        = scan_targets (R := plain_runtime) rest fg count world0).
Proof.
  intros sheets.
  apply (narrow_basic_sheet_skipped_silently (R := plain_runtime) (u "c.xlsx") sheets
           (df := {| columns := [PyStr (u "項目")]; rows := [[PyStr KEY_NAME]] |}) world0).
  - reflexivity.
  - reflexivity.
  - simpl. lia.
Defined.

(** C2 (the case the code misses). A target file whose latitude cell is empty
    is read by pandas with NaN in that cell, a value [pd.notnull] rejects;
    but [float(nan)] does not raise, so the routine returns a record, with a
    NaN latitude, and prints no warning (the world is unchanged).  This holds
    under every runtime. *)
Theorem blank_latitude_is_accepted {R : Runtime} (w : World) :
  m_get (to_dict (basic_df blank_info)) KEY_LAT = nan_cell
  /\ notnull nan_cell = false
  /\ exists d,
       read_park_xlsx (u "a.xlsx") blank_latitude OUTPUT_DIR w = (w, Ok (Some d))
       /\ is_nan (lat d) = true.
Proof.
  split; [reflexivity|]. split; [reflexivity|].
  eexists. split; [cbv; reflexivity | reflexivity].
Qed.

(** C5, as the specification words it, fails: the demonstration park has no
    monitoring-period row, and the field of its record is not the empty
    string. *)
Lemma missing_period_is_not_empty :
  exists d,
    read_excel [basic_sheet demo_info] SHEET_BASIC = Ok (basic_df demo_info)
    /\ lacks_key (basic_df demo_info) KEY_PERIOD
    /\ read_park_xlsx (R := plain_runtime) (u "a.xlsx") demo_park OUTPUT_DIR world0
       = (world0, Ok (Some d))
    /\ monitoring_period d <> [].
Proof.
  eexists. split; [reflexivity|].
  split; [repeat constructor|].
  split; [cbv; reflexivity|]. discriminate.
Qed.

(** C5, amended. When the basic-info sheet of a target file has no row for
    the monitoring period, the data type or the note, that field of the park
    record is the placeholder （未填）. *)
Theorem missing_metadata_defaults_to_placeholder {R : Runtime}
  (path : str) (sheets : list (str * result DataFrame)) (df : DataFrame)
  (data_dir : str) (w w' : World) (d : ParkRecord) :
  read_excel sheets SHEET_BASIC = Ok df ->
  read_park_xlsx path (Workbook sheets) data_dir w = (w', Ok (Some d)) ->
  (lacks_key df KEY_PERIOD -> monitoring_period d = NOT_FILLED)
  /\ (lacks_key df KEY_TYPE -> data_type d = NOT_FILLED)
  /\ (lacks_key df KEY_NOTE -> note d = NOT_FILLED).
Proof.
  intros Hdf Hread.
  destruct (load_basic_info (Workbook sheets)) as [[[sh m]|]|e] eqn:Hl.
  2,3: rewrite read_park_xlsx_not_loaded in Hread;
       [discriminate | intros ? ?; rewrite Hl; discriminate].
  destruct (load_basic_info_workbook _ Hl) as [-> [df' [Hdf' [-> _]]]].
  rewrite Hdf in Hdf'. injection Hdf' as <-.
  rewrite (@read_park_xlsx_loaded _ path _ data_dir w _ _ Hl) in Hread. cbv zeta in Hread.
  assert (Hrec : exists name flon flat href,
             d = record_of (to_dict df) name flon flat href).
  { destruct (py_float (m_get (to_dict df) KEY_LON));
      [|warned Hread; discriminate].
    destruct (py_float (m_get (to_dict df) KEY_LAT));
      [|warned Hread; discriminate].
    destruct (str_in SHEET_MEAS (sheet_names sheets)).
    - destruct (write_detail_page _ _ _ _) as [w1 [href|e]];
        [|warned Hread; [|discriminate]];
        injection Hread as _ <-; eexists _, _, _, _; reflexivity.
    - injection Hread as _ <-. eexists _, _, _, _; reflexivity. }
  destruct Hrec as (name & flon & flat & href & ->).
  unfold record_of; simpl. unfold get_str.
  repeat split; intros Hk; now rewrite (dict_get_lacks Hk).
Qed.

(** The theorem above at the demonstration park, which has none of the three rows. *)
Lemma missing_metadata_defaults_to_placeholder_witness :
  exists d,
    (read_excel [basic_sheet demo_info] SHEET_BASIC = Ok (basic_df demo_info)
     /\ read_park_xlsx (R := plain_runtime) (u "a.xlsx") demo_park OUTPUT_DIR world0
        = (world0, Ok (Some d)))
    /\ (lacks_key (basic_df demo_info) KEY_PERIOD -> monitoring_period d = NOT_FILLED)
    /\ (lacks_key (basic_df demo_info) KEY_TYPE -> data_type d = NOT_FILLED)
    /\ (lacks_key (basic_df demo_info) KEY_NOTE -> note d = NOT_FILLED).
Proof.
  eexists. split; [split; [reflexivity | cbv; reflexivity]|].
  apply (missing_metadata_defaults_to_placeholder (R := plain_runtime)
           (u "a.xlsx") [basic_sheet demo_info] (df := basic_df demo_info)
           OUTPUT_DIR world0 (w' := world0));
    [reflexivity | cbv; reflexivity].
Defined.




(** A disk that refuses the write is one more way for the page to fail; the
    record is kept all the same. *)
Example readonly_disk_keeps_record :
  exists w d,
    read_park_xlsx (R := readonly_runtime) (u "a.xlsx") measured_park OUTPUT_DIR world0
    = (w, Ok (Some d))
    /\ raw_page_href d = [] /\ written w = []
    /\ stdout w = [u "⚠️ 示範園區 量測資料生成失敗: Permission denied"].
Proof.
  eexists _, _. split; [cbv; reflexivity|]. repeat split.
Qed.

End ExtractorFacts.

(* ================================================================== *)
(** ** The detail page and the order of its rows *)
(* ================================================================== *)

Module DetailPageFacts.

Import ExtractorFacts.

(** *** Generalities on [Sorted] *)

Section SortedLists.

Variable A : Type.

Lemma Sorted_weaken (P : A -> Prop) (R1 R2 : A -> A -> Prop) (l : list A) :
  (forall a b, P a -> R1 a b -> R2 a b) ->
  Forall P l -> Sorted R1 l -> Sorted R2 l.
Proof.
  intros H HP HS. induction HS as [|a l HS IH Hd]; constructor.
  - apply IH. now inversion HP.
  - inversion HP; subst. destruct Hd; constructor. now apply H.
Qed.

Lemma Sorted_all (R : A -> A -> Prop) (l : list A) :
  (forall a b, In b l -> R a b) -> Sorted R l.
Proof.
  induction l as [|x l IH]; intros H; constructor.
  - apply IH. intros a b Hb. apply H. now right.
  - destruct l; constructor. apply H. right. now left.
Qed.

Lemma Sorted_app (R : A -> A -> Prop) (l1 l2 : list A) :
  Sorted R l1 -> Sorted R l2 ->
  (forall a b, In a l1 -> In b l2 -> R a b) ->
  Sorted R (l1 ++ l2).
Proof.
  intros H1 H2 H. induction H1 as [|a l1 H1 IH Hd]; simpl; [exact H2|].
  constructor.
  - apply IH. intros x y Hx Hy. apply H; [now right | exact Hy].
  - destruct Hd as [|b l1' Hab]; simpl.
    + destruct l2 as [|b l2]; constructor. apply H; now left.
    + constructor. exact Hab.
Qed.

Lemma filter_partition (f : A -> bool) (l : list A) :
  Permutation l (filter f l ++ filter (fun x => negb (f x)) l).
Proof.
  induction l as [|x l IH]; simpl; [constructor|].
  destruct (f x); simpl.
  - now constructor.
  - now apply Permutation_cons_app.
Qed.

End SortedLists.

Section WithRuntime.

Context {R : Runtime}.

(** *** [sort_rows] is an insertion sort *)

Lemma insert_row_perm (i : nat) (row : list pyval) (l : list (list pyval)) :
  Permutation (row :: l) (insert_row i row l).
Proof.
  induction l as [|r l IH]; simpl; [reflexivity|].
  destruct (key_le (cell i row) (cell i r)); [reflexivity|].
  rewrite perm_swap. now constructor.
Qed.

Lemma sort_rows_perm (i : nat) (l : list (list pyval)) :
  Permutation l (sort_rows i l).
Proof.
  induction l as [|r l IH]; simpl; [constructor|].
  rewrite <- insert_row_perm. now constructor.
Qed.

Lemma insert_row_hd (i : nat) (r row : list pyval) (l : list (list pyval)) :
  keys_le i r row -> HdRel (keys_le i) r l -> HdRel (keys_le i) r (insert_row i row l).
Proof.
  intros Hr Hd. destruct Hd as [|b l Hb]; simpl.
  - now constructor.
  - destruct (key_le (cell i row) (cell i b)); now constructor.
Qed.

Lemma insert_row_sorted (i : nat) (row : list pyval) (l : list (list pyval)) :
  (forall r, In r l -> keys_le i row r \/ keys_le i r row) ->
  Sorted (keys_le i) l -> Sorted (keys_le i) (insert_row i row l).
Proof.
  intros Htot HS. induction HS as [|r l HS IH Hd]; simpl.
  - repeat constructor.
  - destruct (key_le (cell i row) (cell i r)) eqn:Hle.
    + constructor; [now constructor | now constructor].
    + constructor.
      * apply IH. intros x Hx. apply Htot. now right.
      * apply insert_row_hd; [|exact Hd].
        destruct (Htot r (or_introl eq_refl)) as [H|H]; [|exact H].
        unfold keys_le in H. congruence.
Qed.

Lemma sort_rows_sorted (i : nat) (l : list (list pyval)) :
  (forall a b, In a l -> In b l -> keys_le i a b \/ keys_le i b a) ->
  Sorted (keys_le i) (sort_rows i l).
Proof.
  induction l as [|r l IH]; intros Htot; simpl; [constructor|].
  apply insert_row_sorted.
  - intros x Hx. apply Htot; [now left | right].
    eapply Permutation_in; [symmetry; apply sort_rows_perm | exact Hx].
  - apply IH. intros a b Ha Hb. apply Htot; now right.
Qed.

(** *** [sort_values] *)

Lemma has_column_index_of (name : str) (df : DataFrame) :
  has_column name df = true <-> exists i, index_of name (columns df) = Some i.
Proof.
  unfold has_column. induction (columns df) as [|c cs IH]; simpl.
  - split; [discriminate | intros [i Hi]; discriminate].
  - destruct (is_str name c); simpl.
    + split; [intros _; now exists 0 | reflexivity].
    + rewrite IH. split; intros [i Hi].
      * exists (S i). now rewrite Hi.
      * destruct (index_of name cs) as [j|]; [now exists j | discriminate].
Qed.

Lemma sort_values_ok (total : sort_order_total) (name : str) (df shown : DataFrame) :
  sort_values name df = Ok shown ->
  exists i, index_of name (columns df) = Some i
            /\ columns shown = columns df
            /\ Permutation (rows df) (rows shown)
            /\ Sorted (non_decreasing i) (rows shown).
Proof.
  unfold sort_values. destruct (index_of name (columns df)) as [i|]; [|discriminate].
  set (present := filter (fun r => notnull (cell i r)) (rows df)).
  set (missing := filter (fun r => negb (notnull (cell i r))) (rows df)).
  destruct (sortable (map (cell i) present)) eqn:Hs; [|discriminate].
  intros [= <-]. exists i. simpl. repeat split.
  - rewrite <- sort_rows_perm. apply filter_partition.
  - assert (Hp : Forall (fun r => notnull (cell i r) = true) (sort_rows i present)).
    { apply Forall_forall. intros r Hr.
      apply (Permutation_in _ (Permutation_sym (sort_rows_perm i present))) in Hr.
      now apply filter_In in Hr. }
    assert (Hm : forall a b, In b missing -> non_decreasing i a b).
    { intros a b Hb. apply filter_In in Hb. unfold non_decreasing.
      destruct Hb as [_ ->]. reflexivity. }
    apply Sorted_app.
    + apply Sorted_weaken with (P := fun r => notnull (cell i r) = true)
                               (R1 := keys_le i); [|exact Hp|].
      * intros a b Ha Hab. unfold non_decreasing. unfold keys_le in Hab.
        rewrite Ha, Hab. apply orb_true_r.
      * apply sort_rows_sorted. intros a b Ha Hb.
        apply (total _ Hs); now apply in_map.
    + apply Sorted_all. exact Hm.
    + intros a b _ Hb. now apply Hm.
Qed.

(** *** The body of the second [try] block, when it succeeds *)

Lemma write_detail_page_ok (total : sort_order_total)
  (sheets : list (str * result DataFrame)) (name data_dir : str)
  (w w' : World) (href : str) (meas : DataFrame) :
  read_excel sheets SHEET_MEAS = Ok meas ->
  write_detail_page sheets name data_dir w = (w', Ok href) ->
  href = u "./data/" ++ meas_filename_of name
  /\ exists shown table,
       to_html shown = Ok table
       /\ stdout w' = stdout w
       /\ written w'
          = written w ++ [(path_join data_dir (meas_filename_of name),
                           page_html name table)]
       /\ columns shown = columns meas
       /\ Permutation (rows meas) (rows shown)
       /\ match index_of (u "StartTime") (columns meas) with
          | Some i => Sorted (non_decreasing i) (rows shown)
          | None => rows shown = rows meas
          end.
Proof.
  intros Hm. unfold write_detail_page, mkdir, write_text, leave_file.
  io_unfold. rewrite Hm.
  destruct (has_column (u "StartTime") meas) eqn:Hc.
  - destruct (sort_values (u "StartTime") meas) as [shown|e] eqn:Hsort;
      [|discriminate].
    destruct (fs_mkdir w data_dir); [discriminate|].
    destruct (to_html shown) as [table|e] eqn:Ht; [|discriminate].
    destruct (fs_write w _); [discriminate|].
    destruct (encodable _); [|discriminate].
    destruct (fs_cut w _ _) as [[e n]|]; [discriminate|].
    intros [= <- <-]. split; [reflexivity|]. exists shown, table.
    destruct (sort_values_ok total _ _ Hsort) as (i & Hi & Hcols & Hperm & Hsorted).
    rewrite Hi. simpl. repeat split; assumption.
  - destruct (fs_mkdir w data_dir); [discriminate|].
    destruct (to_html meas) as [table|e] eqn:Ht; [|discriminate].
    destruct (fs_write w _); [discriminate|].
    destruct (encodable _); [|discriminate].
    destruct (fs_cut w _ _) as [[e n]|]; [discriminate|].
    intros [= <- <-]. split; [reflexivity|]. exists meas, table.
    destruct (index_of (u "StartTime") (columns meas)) as [i|] eqn:Hi.
    + assert (has_column (u "StartTime") meas = true)
        by (apply has_column_index_of; now exists i).
      congruence.
    + simpl. repeat split; auto.
Qed.

End WithRuntime.

(** The order of the plain runtime is total on what it accepts. *)
Lemma plain_order_total : sort_order_total (R := plain_runtime).
Proof.
  intros col Hs a b Ha Hb. simpl in *.
  rewrite forallb_forall in Hs.
  pose proof (Hs a Ha) as Ia. pose proof (Hs b Hb) as Ib.
  destruct a; try discriminate. destruct b; try discriminate. simpl.
  rewrite !Z.leb_le. lia.
Qed.

(** C7. When the routine has generated a detail page (the link of the record
    is not empty), the file written last is that page, and the table in it is
    [to_html] of a frame with the columns of the measurement sheet and a
    permutation of its rows which, if the sheet has a column named StartTime,
    stand in non-decreasing order of that column (rows without a value
    last), and otherwise stand in the order of the sheet. *)
Theorem detail_table_rows_sorted {R : Runtime} (total : sort_order_total)
  (path : str) (sheets : list (str * result DataFrame)) (data_dir : str)
  (w w' : World) (d : ParkRecord) (meas : DataFrame) :
  read_excel sheets SHEET_MEAS = Ok meas ->
  read_park_xlsx path (Workbook sheets) data_dir w = (w', Ok (Some d)) ->
  raw_page_href d <> [] ->
  exists shown table,
    to_html shown = Ok table
    /\ written w'
       = written w ++ [(path_join data_dir (meas_filename_of (park_name d)),
                        page_html (park_name d) table)]
    /\ columns shown = columns meas
    /\ Permutation (rows meas) (rows shown)
    /\ match index_of (u "StartTime") (columns meas) with
       | Some i => Sorted (non_decreasing i) (rows shown)
       | None => rows shown = rows meas
       end.
Proof.
  intros Hmeas Hread Hhref.
  destruct (load_basic_info (Workbook sheets)) as [[[sh m]|]|e] eqn:Hl.
  2,3: rewrite read_park_xlsx_not_loaded in Hread;
       [discriminate | intros ? ?; rewrite Hl; discriminate].
  destruct (load_basic_info_workbook _ Hl) as [-> _].
  rewrite (@read_park_xlsx_loaded _ path _ data_dir w _ _ Hl) in Hread.
  cbv zeta in Hread.
  destruct (py_float (m_get m KEY_LON)); [|warned Hread; discriminate].
  destruct (py_float (m_get m KEY_LAT)); [|warned Hread; discriminate].
  destruct (str_in SHEET_MEAS (sheet_names sheets)).
  - destruct (write_detail_page sheets _ data_dir w) as [w1 [href|e]] eqn:Hw.
    2: { warned Hread; [|discriminate]. injection Hread as _ <-.
         now destruct Hhref. }
    injection Hread as <- <-.
    destruct (write_detail_page_ok total _ _ _ _ Hmeas Hw)
      as (_ & shown & table & Ht & _ & Hwr & Hrest).
    exists shown, table. simpl. auto.
  - injection Hread as _ <-. now destruct Hhref.
Qed.

(** The theorem above at the park whose measurement sheet holds the rows 3, 1, 2. *)
Lemma detail_table_rows_sorted_witness :
  exists w' d shown table,
    (read_excel [basic_sheet demo_info; measured_sheet] SHEET_MEAS
     = Ok {| columns := [PyStr (u "StartTime"); PyStr (u "PM25")];
             rows := [[PyInt 3; PyInt 30]; [PyInt 1; PyInt 10]; [PyInt 2; PyInt 20]] |}
     /\ read_park_xlsx (R := plain_runtime) (u "a.xlsx") measured_park OUTPUT_DIR world0
        = (w', Ok (Some d))
     /\ raw_page_href d <> [])
    /\ to_html (Runtime := plain_runtime) shown = Ok table
    /\ written w'
       = [(path_join OUTPUT_DIR (meas_filename_of (R := plain_runtime) (park_name d)),
           page_html (park_name d) table)]
    /\ Permutation [[PyInt 3; PyInt 30]; [PyInt 1; PyInt 10]; [PyInt 2; PyInt 20]]
                   (rows shown)
    /\ Sorted (non_decreasing (R := plain_runtime) 0) (rows shown).
Proof.
  assert (Hread : exists w' d,
             read_park_xlsx (R := plain_runtime) (u "a.xlsx") measured_park
                            OUTPUT_DIR world0 = (w', Ok (Some d))
             /\ raw_page_href d <> []).
  { eexists _, _. split; [cbv; reflexivity | discriminate]. }
  destruct Hread as (w' & d & Hread & Hhref).
  destruct (@detail_table_rows_sorted plain_runtime plain_order_total (u "a.xlsx")
              [basic_sheet demo_info; measured_sheet] OUTPUT_DIR world0 w' d _
              eq_refl Hread Hhref)
    as (shown & table & Ht & Hw & _ & Hp & Hs).
  exists w', d, shown, table.
  split; [split; [reflexivity | split; assumption]|].
  repeat split; assumption.
Defined.

(** On that file the rows 3, 1, 2 of the sheet are written as 1, 2, 3. *)
Example measured_rows_in_order :
  exists w d,
    read_park_xlsx (R := plain_runtime) (u "a.xlsx") measured_park OUTPUT_DIR world0
    = (w, Ok (Some d))
    /\ map snd (written w)
       = [page_html (park_name d)
            (plain_table plain_cell_str
               {| columns := [PyStr (u "StartTime"); PyStr (u "PM25")];
                  rows := [[PyInt 1; PyInt 10]; [PyInt 2; PyInt 20];
                           [PyInt 3; PyInt 30]] |})].
Proof.
  eexists _, _. split; [cbv; reflexivity|]. vm_compute. reflexivity.
Qed.

End DetailPageFacts.

(* ================================================================== *)
(** ** Properties of the whole run, [main] *)
(* ================================================================== *)

Module MainFacts.

Import ExtractorFacts.

Section WithRuntime.

Context {R : Runtime}.

(** *** Markers *)

Lemma target_marker_cases (d : ParkRecord) :
  if is_nan (lat d) || is_nan (lon d) then target_marker d = Raise nan_error
  else target_marker d
       = Ok {| location := (lat d, lon d);
               popup := Some (create_popup_html d);
               tooltip := Some (park_name d);
               color := u "green" |}.
Proof.
  unfold target_marker, validate_location. simpl.
  destruct (is_nan (lat d)); simpl; [reflexivity|].
  destruct (is_nan (lon d)); reflexivity.
Qed.

Lemma target_marker_ok (d : ParkRecord) (mk : Marker) :
  target_marker d = Ok mk ->
  location mk = (lat d, lon d)
  /\ popup mk = Some (create_popup_html d)
  /\ tooltip mk = Some (park_name d).
Proof.
  pose proof (target_marker_cases d) as H.
  destruct (is_nan (lat d) || is_nan (lon d)); rewrite H; [discriminate|].
  intros [= <-]. repeat split.
Qed.

Lemma target_marker_raise (d : ParkRecord) (e : exn) :
  target_marker d = Raise e ->
  e = nan_error /\ is_nan (lat d) || is_nan (lon d) = true.
Proof.
  pose proof (target_marker_cases d) as H.
  destruct (is_nan (lat d) || is_nan (lon d)); rewrite H; [|discriminate].
  intros [= <-]. split; reflexivity.
Qed.

Lemma infix_here (M post : str) : exists pre post', M ++ post = pre ++ M ++ post'.
Proof. now exists [], post. Qed.

Lemma infix_later (x rest M : str) :
  (exists pre post, rest = pre ++ M ++ post) ->
  exists pre post, x ++ rest = pre ++ M ++ post.
Proof.
  intros (pre & post & ->). exists (x ++ pre), post. now rewrite app_assoc.
Qed.

(** *** What the popup holds *)

Lemma quoted_value_plain (v rest : str) :
  Forall (fun c => c <> 34%N) v -> quoted_value (v ++ [34%N] ++ rest) = Some v.
Proof.
  intros H. change ([34%N] ++ rest) with (34%N :: rest).
  induction H as [|c v Hc _ IH]; simpl; [reflexivity|].
  apply N.eqb_neq in Hc. now rewrite Hc, IH.
Qed.

Lemma plain_reads_back (v : str) : plain_value v -> reads_back v.
Proof.
  intros H. split.
  - intros rest. apply quoted_value_plain.
    eapply Forall_impl; [|exact H]. now intros c [Hq _].
  - eapply Forall_impl; [|exact H]. now intros c [_ Ha].
Qed.

Section Kept.

(** A property of characters that the underscore has is kept by the slug. *)
Variable P : N -> Prop.
Hypothesis P_underscore : P underscore.

Lemma lstrip_keeps (s : str) : Forall P s -> Forall P (lstrip s).
Proof.
  induction 1 as [|c r Hc Hr IH]; simpl; [constructor|].
  destruct (is_space c); [exact IH | now constructor].
Qed.

Lemma sub_space_runs_keeps (s : str) :
  Forall P s -> forall b, Forall P (sub_space_runs b s).
Proof.
  induction 1 as [|c r Hc Hr IH]; intros b; simpl; [constructor|].
  destruct (is_space c); [destruct b|]; auto.
Qed.

Lemma safe_slug_keeps (x : str) : Forall P x -> Forall P (safe_slug uni_alnum x).
Proof.
  intros H. unfold safe_slug, sub_disallowed, strip.
  apply Forall_map.
  eapply Forall_impl; [|apply sub_space_runs_keeps, Forall_rev, lstrip_keeps,
                         Forall_rev, lstrip_keeps, H].
  intros c Hc. now destruct (slug_allowed uni_alnum c).
Qed.

End Kept.

Lemma meta_div_hidden (pid name lat_s lon_s : str) :
  meta_div pid name lat_s lon_s = hidden_element (u "meta_" ++ pid) name lat_s lon_s.
Proof.
  unfold meta_div, hidden_element.
  replace (t "<div id=`meta_") with (t "<div id=`" ++ u "meta_")
    by (vm_compute; reflexivity).
  now rewrite <- !app_assoc.
Qed.

(** The popup holds the hidden element, whatever the record. *)
Lemma popup_has_element (d : ParkRecord) :
  exists pre post,
    create_popup_html d
    = pre ++ hidden_element (u "meta_" ++ safe_slug uni_alnum (park_name d))
                            (park_name d) (float_str (lat d)) (float_str (lon d))
          ++ post.
Proof.
  unfold create_popup_html. cbv zeta. rewrite meta_div_hidden.
  with_strategy opaque [t u hidden_element feedback_html btn_html safe_slug]
    (do 11 apply infix_later; apply infix_here).
Qed.

Lemma call_here (a s b post : str) :
  exists pre post', a ++ s ++ b ++ post = pre ++ a ++ s ++ b ++ post'.
Proof. now exists [], post. Qed.

Lemma call_later (x rest a s b : str) :
  (exists pre post, rest = pre ++ a ++ s ++ b ++ post) ->
  exists pre post, x ++ rest = pre ++ a ++ s ++ b ++ post.
Proof.
  intros (pre & post & ->). exists (x ++ pre), post. now rewrite app_assoc.
Qed.

Lemma popup_passes_slug (d : ParkRecord) :
  passes_slug (safe_slug uni_alnum (park_name d)) (create_popup_html d).
Proof.
  unfold passes_slug, create_popup_html, feedback_html. cbv zeta.
  replace (t "` rows=`2` style=`width:100%;font-size:12px;` placeholder=`輸入回饋...`></textarea>
        <button onclick=`sendFeedback('")
    with (t "` rows=`2` style=`width:100%;font-size:12px;` placeholder=`輸入回饋...`></textarea>
        <button onclick=`" ++ u "sendFeedback('")
    by (vm_compute; reflexivity).
  replace (t "')` style=`margin-top:4px;font-size:12px;cursor:pointer;`>送出</button>
        <span id=`msg_")
    with (u "')" ++ t "` style=`margin-top:4px;font-size:12px;cursor:pointer;`>送出</button>
        <span id=`msg_")
    by (vm_compute; reflexivity).
  rewrite <- !app_assoc.
  with_strategy opaque [t u meta_div btn_html safe_slug]
    (do 12 apply call_later; apply call_here).
Qed.

Lemma create_popup_html_carries (d : ParkRecord) :
  (forall f, plain_value (float_str f)) ->
  plain_value (park_name d) ->
  carries_metadata d (create_popup_html d).
Proof.
  intros Hf Hn. unfold carries_metadata. cbv zeta.
  assert (Hid : plain_value (u "meta_" ++ safe_slug uni_alnum (park_name d))).
  { apply Forall_app. split.
    - vm_compute. repeat constructor; discriminate.
    - apply safe_slug_keeps; [split; discriminate | exact Hn]. }
  split; [apply popup_has_element|].
  split; [exact (plain_reads_back Hid)|].
  split; [exact (plain_reads_back Hn)|].
  split; apply plain_reads_back, Hf.
Qed.

(** *** The scan *)

Lemma extracted_cons (name : str) (file : xlsx) (rest : list (str * xlsx)) (w : World) :
  extracted ((name, file) :: rest) w
  = if str_in name EXCLUDE_FILES then extracted rest w
    else
      match read_park_xlsx name file OUTPUT_DIR w with
      | (w1, Ok (Some d)) =>
        d :: extracted rest (fst (print (u "  ✅ 成功載入: " ++ park_name d) w1))
      | (w1, _) => extracted rest w1
      end.
Proof. reflexivity. Qed.

(** The loop adds one marker per extracted record, in order, and counts
    them; it can be left by the exception of a marker whose record has a NaN
    coordinate, or by that of a line that cannot be printed.  Nothing is
    saved meanwhile. *)
Lemma scan_targets_spec (files : list (str * xlsx)) :
  forall (fg : list Marker) (count : Z) (w : World),
    match scan_targets files fg count w with
    | (w', Ok (fg', count')) =>
      exists mks,
        Forall2 (fun d mk => target_marker d = Ok mk) (extracted files w) mks
        /\ fg' = fg ++ mks
        /\ count' = (count + Z.of_nat (List.length mks))%Z
        /\ saved w' = saved w
    | (w', Raise e) =>
      saved w' = saved w
      /\ (e = encode_error
          \/ (e = nan_error
              /\ exists d, In d (extracted files w)
                           /\ is_nan (lat d) || is_nan (lon d) = true))
    end.
Proof.
  induction files as [|[name file] rest IH]; intros fg count w.
  - simpl. exists []. rewrite app_nil_r. repeat split; [constructor | simpl; lia].
  - rewrite scan_targets_cons, extracted_cons.
    destruct (str_in name EXCLUDE_FILES); [apply IH|].
    destruct (read_park_xlsx_outcome name file OUTPUT_DIR w)
      as (w1 & r & Hr & Hs & Hcase).
    unfold bind at 1. rewrite Hr.
    destruct Hcase as [->|[[d|] ->]]; [split; [exact Hs | now left]| |].
    + rewrite print_then. unfold print.
      destruct (encodable (u "  ✅ 成功載入: " ++ park_name d));
        [|split; [exact Hs | now left]].
      cbn [fst].
      set (w2 := {| stdout := _; written := written w1; saved := saved w1 |}).
      unfold bind at 1, lift.
      destruct (target_marker d) as [mk|e] eqn:Hmk.
      * specialize (IH (fg ++ [mk]) (count + 1)%Z w2).
        destruct (scan_targets rest (fg ++ [mk]) (count + 1) w2)
          as [w' [[fg' count']|e]].
        -- destruct IH as (mks & HF & -> & -> & Hsv).
           exists (mk :: mks). repeat split.
           ++ now constructor.
           ++ now rewrite <- app_assoc.
           ++ simpl List.length. lia.
           ++ now rewrite Hsv.
        -- destruct IH as (Hsv & Hcase). split; [now rewrite Hsv|].
           destruct Hcase as [->|(-> & d' & Hin & Hnan)]; [now left|].
           right. split; [reflexivity|]. exists d'. split; [now right | exact Hnan].
      * destruct (target_marker_raise _ Hmk) as [-> Hnan].
        split; [exact Hs|]. right. split; [reflexivity|].
        exists d. split; [now left | exact Hnan].
    + specialize (IH fg count w1).
      destruct (scan_targets rest fg count w1) as [w' [[fg' count']|e]].
      * destruct IH as (mks & HF & -> & -> & Hsv).
        exists mks. repeat split; auto. now rewrite Hsv.
      * destruct IH as (Hsv & Hcase). split; [now rewrite Hsv | exact Hcase].
Qed.

(** *** [main], step by step *)

Lemma main_split (bg : Background) (dir : list (str * xlsx)) (w : World) :
  main bg dir w
  = (print (u "🚀 開始建立地圖...") ;;;
     m <- background_phase bg ;;
     scan_phase m dir) w.
Proof.
  unfold main, background_phase, scan_phase, path_exists. cbv zeta.
  unfold bind, try_except, lift, ret.
  destruct (print (u "🚀 開始建立地圖...") w) as [w1 [[]|e]]; [|reflexivity].
  destruct (county bg) as [|e0|[[]|ec]]; try reflexivity;
    try (destruct (print _ w1) as [w2 [[]|e]]; [|reflexivity]);
    (destruct (industrial bg) as [|e1|[[]|ei]]; try reflexivity);
    (destruct (school bg) as [|e2|rs]; try reflexivity);
    (destruct (center bg) as [|e3|rc]; reflexivity).
Qed.

(** The background layers: if they let the run go on, the map is the one
    [background_map] describes and the county warning, if any, is
    printed. *)
Lemma background_phase_run (bg : Background) (w : World) :
  match background_phase bg w with
  | (w1, Ok m) => m = background_map bg /\ w1 = county_world bg w /\ accessible bg
  | (w1, Raise _) => saved w1 = saved w
  end.
Proof.
  unfold background_phase, background_map, county_world, accessible, path_exists.
  unfold bind, try_except, lift, ret.
  destruct (county bg) as [|e0|[[]|ec]]; try reflexivity.
  3: { unfold print. destruct (encodable _); [|reflexivity]. cbn [fst].
       destruct (industrial bg) as [|e1|[[]|ei]]; try reflexivity;
         (destruct (school bg) as [|e2|rs]; try reflexivity);
         (destruct (center bg) as [|e3|rc]; try reflexivity);
         repeat split; congruence. }
  all: destruct (industrial bg) as [|e1|[[]|ei]]; try reflexivity;
       (destruct (school bg) as [|e2|rs]; try reflexivity);
       (destruct (center bg) as [|e3|rc]; try reflexivity);
       repeat split; congruence.
Qed.

Lemma background_has_no_targets (bg : Background) :
  target_markers (background_map bg) = [].
Proof.
  unfold background_map, target_markers.
  destruct (county bg) as [|e0|[[]|ec]], (industrial bg) as [|e1|[[]|ei]];
    reflexivity.
Qed.

Lemma target_markers_composed (bg : Background) (fg : list Marker) :
  target_markers (composed bg fg) = fg.
Proof.
  unfold target_markers, composed. cbn [overlays].
  rewrite flat_map_app.
  change (flat_map _ (overlays (background_map bg)))
    with (target_markers (background_map bg)).
  rewrite background_has_no_targets. simpl.
  replace (str_eqb TARGET_GROUP TARGET_GROUP) with true by reflexivity.
  apply app_nil_r.
Qed.

Lemma background_map_children (bg : Background) :
  html_children (background_map bg) = [].
Proof.
  unfold background_map.
  destruct (county bg) as [|e0|[[]|ec]], (industrial bg) as [|e1|[[]|ei]];
    reflexivity.
Qed.

Lemma saved_document (bg : Background) (fg : list Marker) :
  {| overlays := overlays (add_overlay (FeatureGroup TARGET_GROUP fg)
                                       (background_map bg));
     html_children := html_children (add_overlay (FeatureGroup TARGET_GROUP fg)
                                                 (background_map bg))
                      ++ [feedback_js];
     layer_control := true |}
  = composed bg fg.
Proof.
  unfold composed, add_overlay. cbn [overlays html_children].
  now rewrite background_map_children.
Qed.

Lemma county_world_saved (bg : Background) (w : World) :
  saved (county_world bg w) = saved w.
Proof.
  unfold county_world, print.
  destruct (county bg) as [|e0|[[]|ec]]; try reflexivity.
  now destruct (encodable _).
Qed.

Lemma scan_start_saved (bg : Background) (dir : list (str * xlsx)) (w : World) :
  saved (scan_start bg dir w) = saved w.
Proof.
  unfold scan_start. fold (county_world bg (fst (print (u "🚀 開始建立地圖...") w))).
  unfold print at 1. destruct (encodable _); cbn [fst saved];
    rewrite county_world_saved; unfold print; now destruct (encodable _).
Qed.

(** The world once the banner is printed. *)
Definition banner_world (w : World) : World :=
  {| stdout := stdout w ++ [u "🚀 開始建立地圖..."];
     written := written w; saved := saved w |}.

(** The world in which the scan starts, when its three lines could be
    printed. *)
Lemma scan_start_printed (bg : Background) (dir : list (str * xlsx)) (w : World)
  (line : str) :
  line = u "📂 找到 " ++ int_str (Z.of_nat (List.length (glob_xlsx dir)))
           ++ u " 個 Excel 檔，開始掃描..." ->
  encodable line = true ->
  scan_start bg dir w
  = {| stdout := stdout (county_world bg (banner_world w)) ++ [line];
       written := written (county_world bg (banner_world w));
       saved := saved (county_world bg (banner_world w)) |}.
Proof.
  intros -> He. unfold scan_start.
  rewrite (@print_ok (u "🚀 開始建立地圖...") w eq_refl).
  cbn [fst]. fold (banner_world w). fold (county_world bg (banner_world w)).
  now rewrite print_ok by exact He.
Qed.

(** What a run that returns has done. *)
Lemma main_ok (bg : Background) (dir : list (str * xlsx)) (w w' : World) (x : unit) :
  main bg dir w = (w', Ok x) ->
  exists fg,
    saved w' = saved w ++ [(OUTPUT_HTML, composed bg fg)]
    /\ Forall2 (fun d mk => target_marker d = Ok mk)
               (extracted (glob_xlsx dir) (scan_start bg dir w)) fg
    /\ In (count_line (Z.of_nat (List.length fg))) (stdout w')
    /\ accessible bg.
Proof.
  rewrite main_split, print_then.
  replace (encodable (u "🚀 開始建立地圖...")) with true by reflexivity.
  fold (banner_world w). set (wb := banner_world w).
  unfold bind at 1.
  pose proof (background_phase_run bg wb) as Hb.
  destruct (background_phase bg wb) as [w1 [m|e]]; [|discriminate].
  destruct Hb as (-> & -> & Hacc).
  unfold scan_phase. cbv zeta. rewrite print_then.
  printed He0; [|discriminate].
  subst wb. rewrite <- (scan_start_printed bg dir w eq_refl He0).
  unfold bind at 1.
  pose proof (scan_targets_spec (glob_xlsx dir) [] 0 (scan_start bg dir w)) as Hs.
  destruct (scan_targets (glob_xlsx dir) [] 0 (scan_start bg dir w))
    as [w2 [[fg count]|e]]; [|discriminate].
  destruct Hs as (mks & HF & -> & -> & Hsv).
  change ([] ++ mks) with mks. rewrite saved_document, Z.add_0_l.
  rewrite print_then. printed He1; [|discriminate].
  unfold save, bind. cbn [fst].
  destruct (fs_write _ OUTPUT_HTML); cbv beta iota; [discriminate|].
  unfold print.
  replace (encodable (u "💾 地圖已存為 " ++ OUTPUT_HTML)) with true by reflexivity.
  intros [= <-]. exists mks. cbn [saved stdout].
  split; [|split; [exact HF|split; [|exact Hacc]]].
  - now rewrite Hsv, scan_start_saved.
  - apply in_or_app. left. apply in_or_app. right. left. reflexivity.
Qed.

Lemma main_raise (bg : Background) (dir : list (str * xlsx)) (w w' : World) (e : exn) :
  main bg dir w = (w', Raise e) -> saved w' = saved w.
Proof.
  rewrite main_split, print_then.
  replace (encodable (u "🚀 開始建立地圖...")) with true by reflexivity.
  fold (banner_world w). set (wb := banner_world w).
  unfold bind at 1.
  pose proof (background_phase_run bg wb) as Hb.
  destruct (background_phase bg wb) as [w1 [m|e1]];
    [|intros [= <- _]; exact Hb].
  destruct Hb as (-> & -> & Hacc).
  unfold scan_phase. cbv zeta. rewrite print_then.
  printed He0;
    [|intros [= <- _]; apply (county_world_saved bg wb)].
  subst wb. rewrite <- (scan_start_printed bg dir w eq_refl He0).
  unfold bind at 1.
  pose proof (scan_targets_spec (glob_xlsx dir) [] 0 (scan_start bg dir w)) as Hs.
  destruct (scan_targets (glob_xlsx dir) [] 0 (scan_start bg dir w))
    as [w2 [[fg count]|e2]].
  - destruct Hs as (mks & _ & _ & _ & Hsv).
    rewrite print_then. printed He1;
      [|intros [= <- _]; now rewrite Hsv, scan_start_saved].
    unfold save, bind. cbn [fst].
    destruct (fs_write _ OUTPUT_HTML); cbv beta iota.
    + intros [= <- _]. cbn [saved]. now rewrite Hsv, scan_start_saved.
    + unfold print.
      replace (encodable (u "💾 地圖已存為 " ++ OUTPUT_HTML)) with true by reflexivity.
      discriminate.
  - destruct Hs as (Hsv & _). intros [= <- _]. now rewrite Hsv, scan_start_saved.
Qed.

End WithRuntime.

(** The runtime of the examples writes floats with digits, letters, signs,
    a dot and a star only. *)
Lemma uint_str_plain (d : Decimal.uint) :
  plain_value (map N_of_ascii (list_ascii_of_string (NilEmpty.string_of_uint d))).
Proof. induction d; simpl; constructor; auto; split; discriminate. Qed.

Lemma int_str_plain (z : Z) : plain_value (int_str z).
Proof.
  unfold int_str, NilZero.string_of_int, NilZero.string_of_uint.
  destruct (Z.to_int z) as [d|d].
  - destruct d; try apply uint_str_plain. repeat constructor; discriminate.
  - simpl. constructor; [split; discriminate|].
    destruct d; try apply uint_str_plain. repeat constructor; discriminate.
Qed.

Lemma plain_float_str_plain (f : float) : plain_value (plain_float_str f).
Proof.
  unfold plain_float_str.
  destruct (Prim2SF f) as [[]|[]| |s m e];
    try (vm_compute; repeat constructor; discriminate).
  apply Forall_app. split.
  - destruct s; [vm_compute|]; repeat constructor; discriminate.
  - apply Forall_app. split; [apply int_str_plain|].
    apply Forall_app. split; [|apply int_str_plain].
    vm_compute. repeat constructor; discriminate.
Qed.

(** C1. Whatever the directory holds and however the run ends: if [main]
    returns, it has saved exactly one document, and the markers of its target
    group are, one for one and in order, the markers of the records the
    extractor returned during the scan, so that there are as many markers as
    extracted records (files the extractor turned down, and excluded files,
    add nothing), and that number is the one the run prints; if [main] is
    left by an exception, no document has been saved at all. *)
Theorem markers_match_extracted_records {R : Runtime}
  (bg : Background) (dir : list (str * xlsx)) (w : World) :
  match main bg dir w with
  | (w', Ok _) =>
    exists m,
      saved w' = saved w ++ [(OUTPUT_HTML, m)]
      /\ List.length (target_markers m)
         = List.length (extracted (glob_xlsx dir) (scan_start bg dir w))
      /\ Forall2 (fun d mk => target_marker d = Ok mk)
                 (extracted (glob_xlsx dir) (scan_start bg dir w))
                 (target_markers m)
      /\ In (count_line (Z.of_nat (List.length (target_markers m)))) (stdout w')
  | (w', Raise _) => saved w' = saved w
  end.
Proof.
  destruct (main bg dir w) as [w' [x|e]] eqn:Hmain.
  - destruct (main_ok _ _ _ Hmain) as (fg & Hsv & HF & Hline & _).
    exists (composed bg fg). rewrite target_markers_composed.
    repeat split; try assumption.
    symmetry. exact (Forall2_length HF).
  - exact (main_raise _ _ _ Hmain).
Qed.

(** The first scenario of the specification: one valid target file and one
    irrelevant spreadsheet give one marker at (23.5, 120.3) and no detail
    page. *)
Example scenario_one_valid_one_irrelevant :
  exists w' m,
    main (R := plain_runtime) no_background
         [(u "park.xlsx", demo_park); (u "other.xlsx", unrelated)] world0
    = (w', Ok tt)
    /\ saved w' = [(OUTPUT_HTML, m)]
    /\ map location (target_markers m) = [(23.5%float, 120.3%float)]
    /\ written w' = [].
Proof.
  eexists _, _. split; [vm_compute; reflexivity|]. repeat split.
Qed.

(** The second scenario: a text latitude rejects the file, with one warning,
    no marker, and the run still ends normally. *)
Example scenario_text_latitude :
  exists w' m,
    main (R := plain_runtime) no_background [(u "park.xlsx", text_latitude)] world0
    = (w', Ok tt)
    /\ saved w' = [(OUTPUT_HTML, m)]
    /\ target_markers m = []
    /\ In (coord_warning (u "示範園區") (u "park.xlsx")) (stdout w').
Proof.
  eexists _, _. split; [vm_compute; reflexivity|].
  repeat split. vm_compute. tauto.
Qed.




(** C9 (the case the code misses). One target file with an empty latitude
    cell: its record is accepted with a NaN latitude, folium refuses the
    marker, nothing catches the exception, and the run ends with status 1
    without saving a document, under every runtime, that is, also when the
    document could have been written. *)
Theorem blank_latitude_aborts_run {R : Runtime} (w : World) :
  exists w',
    main no_background [(u "park.xlsx", blank_latitude)] w = (w', Raise nan_error)
    /\ exit_code (snd (main no_background [(u "park.xlsx", blank_latitude)] w)) = 1%Z
    /\ saved w' = saved w.
Proof.
  assert (H : exists w',
             main no_background [(u "park.xlsx", blank_latitude)] w
             = (w', Raise nan_error)).
  { eexists. cbv. reflexivity. }
  destruct H as (w' & H). exists w'. rewrite H.
  repeat split. exact (main_raise _ _ _ H).
Qed.

End MainFacts.

(* ================================================================== *)
(** ** More on [safe_slug] *)
(* ================================================================== *)

Module SlugMore.

Import SlugFacts.

Lemma lstrip_all_space (ws s : str) : all_space ws -> lstrip (ws ++ s) = lstrip s.
Proof.
  induction 1 as [|c ws Hc _ IH]; simpl; [reflexivity|]. now rewrite Hc.
Qed.

Lemma all_space_rev (ws : str) : all_space ws -> all_space (rev ws).
Proof. unfold all_space. apply Forall_rev. Qed.

Lemma lstrip_rev_trailing (x ws : str) :
  all_space ws -> lstrip (rev (lstrip (x ++ ws))) = lstrip (rev (lstrip x)).
Proof.
  intros Hws. induction x as [|c r IH]; simpl.
  - rewrite <- (app_nil_r ws), lstrip_all_space by exact Hws. reflexivity.
  - destruct (is_space c); [exact IH|].
    change (c :: r ++ ws) with ((c :: r) ++ ws).
    rewrite rev_app_distr. apply lstrip_all_space, all_space_rev, Hws.
Qed.

Lemma strip_outer_space (ws1 x ws2 : str) :
  all_space ws1 -> all_space ws2 -> strip (ws1 ++ x ++ ws2) = strip x.
Proof.
  intros H1 H2. unfold strip.
  now rewrite (lstrip_all_space _ H1), (lstrip_rev_trailing _ H2).
Qed.

Lemma lstrip_length (s : str) : List.length (lstrip s) <= List.length s.
Proof.
  induction s as [|c r IH]; simpl; [lia|]. destruct (is_space c); simpl; lia.
Qed.

Lemma strip_length (s : str) : List.length (strip s) <= List.length s.
Proof.
  unfold strip. rewrite length_rev.
  etransitivity; [apply lstrip_length|]. rewrite length_rev. apply lstrip_length.
Qed.

Lemma sub_space_runs_length (s : str) :
  forall b, List.length (sub_space_runs b s) <= List.length s.
Proof.
  induction s as [|c r IH]; intros b; simpl; [lia|].
  destruct (is_space c); [destruct b|]; simpl;
    match goal with |- context [sub_space_runs ?b' r] => specialize (IH b') end; lia.
Qed.

(** A string is its own slug exactly when it is made of allowed characters
    and holds no whitespace: these strings are the slugs. *)
Theorem safe_slug_fixed_points (uni_alnum : N -> bool) (x : str) :
  safe_slug uni_alnum x = x
  <-> Forall (fun c => slug_allowed uni_alnum c = true) x /\ no_space x.
Proof.
  split.
  - intros H. rewrite <- H. split; [apply safe_slug_allowed | apply safe_slug_no_space].
  - intros [Ha Hs]. unfold safe_slug.
    rewrite (strip_id Hs), (sub_space_runs_id Hs). now apply sub_disallowed_id.
Qed.

(** Whitespace around a name does not count: with any whitespace before and
    after it, the name has the same slug (hence the same detail page). *)
Theorem safe_slug_ignores_outer_space (uni_alnum : N -> bool) (ws1 x ws2 : str) :
  all_space ws1 -> all_space ws2 ->
  safe_slug uni_alnum (ws1 ++ x ++ ws2) = safe_slug uni_alnum x.
Proof.
  intros H1 H2. unfold safe_slug. now rewrite strip_outer_space.
Qed.

(** The theorem above at a name between a tab and two spaces. *)
Lemma safe_slug_ignores_outer_space_witness :
  (all_space [9%N] /\ all_space [32%N; 32%N])
  /\ safe_slug ascii_alnum ([9%N] ++ u "A 1" ++ [32%N; 32%N])
     = safe_slug ascii_alnum (u "A 1").
Proof.
  split; [split; repeat constructor|].
  apply (safe_slug_ignores_outer_space ascii_alnum (ws1 := [9%N]) (u "A 1")
           (ws2 := [32%N; 32%N])); repeat constructor.
Defined.

(** A slug is never longer than the string it comes from, and a string of
    whitespace only (the empty string too) has the empty slug. *)
Theorem safe_slug_length (uni_alnum : N -> bool) (x : str) :
  List.length (safe_slug uni_alnum x) <= List.length x
  /\ (all_space x -> safe_slug uni_alnum x = []).
Proof.
  split.
  - unfold safe_slug, sub_disallowed. rewrite length_map.
    etransitivity; [apply sub_space_runs_length | apply strip_length].
  - intros Hx. unfold safe_slug, strip.
    assert (Hl : lstrip x = []).
    { rewrite <- (app_nil_r x). now rewrite lstrip_all_space. }
    rewrite Hl. reflexivity.
Qed.

End SlugMore.

(* ================================================================== *)
(** ** More on the extractor *)
(* ================================================================== *)

Module ExtractorMore.

Import ExtractorFacts.

Section WithRuntime.

Context {R : Runtime}.

(** *** File names *)

Lemma rfind_app (c : N) (a b : str) (i : nat) :
  rfind c b = Some i -> rfind c (a ++ b) = Some (List.length a + i).
Proof.
  intros Hb. induction a as [|x a IH]; simpl; [exact Hb|]. now rewrite IH.
Qed.

Lemma stem_xlsx (base : str) : base <> [] -> stem (base ++ u ".xlsx") = base.
Proof.
  intros Hb. unfold stem.
  rewrite (@rfind_app 46 base (u ".xlsx") 0 eq_refl).
  rewrite length_app, Nat.add_0_r.
  change (List.length (u ".xlsx")) with 5.
  assert (0 < List.length base) by (destruct base; [congruence | simpl; lia]).
  replace (0 <? List.length base) with true by (symmetry; apply Nat.ltb_lt; lia).
  replace (List.length base <? List.length base + 5 - 1) with true
    by (symmetry; apply Nat.ltb_lt; lia).
  simpl andb. rewrite firstn_app, firstn_all, Nat.sub_diag. simpl. apply app_nil_r.
Qed.

(** *** The shape of what the routine returns *)

Lemma read_park_xlsx_record (path : str) (file : xlsx) (data_dir : str)
  (w w' : World) (d : ParkRecord)
  (sheets : list (str * result DataFrame)) (m : dict) :
  load_basic_info file = Ok (Some (sheets, m)) ->
  read_park_xlsx path file data_dir w = (w', Ok (Some d)) ->
  exists flon flat href,
    d = record_of m (get_str m KEY_NAME (stem path)) flon flat href
    /\ py_float (m_get m KEY_LON) = Ok flon
    /\ py_float (m_get m KEY_LAT) = Ok flat.
Proof.
  intros Hl. rewrite (@read_park_xlsx_loaded _ path _ data_dir w _ _ Hl). cbv zeta.
  destruct (py_float (m_get m KEY_LON)) as [flon|]; [|turned_down].
  destruct (py_float (m_get m KEY_LAT)) as [flat|]; [|turned_down].
  destruct (str_in SHEET_MEAS (sheet_names sheets)).
  - destruct (write_detail_page _ _ _ _) as [w1 [href|e]].
    + intros [= _ <-]; eexists _, _, _; repeat split.
    + rewrite print_then. unfold ret. destruct (encodable _); [|discriminate].
      intros [= _ <-]; eexists _, _, _; repeat split.
  - intros [= _ <-]; eexists _, _, _; repeat split.
Qed.

(** *** The second [try] block and the world *)

Lemma str_eqb_refl (p : str) : str_eqb p p = true.
Proof. unfold str_eqb. now destruct (list_eq_dec N.eq_dec p p). Qed.

(** What a path holds after a write to it is what that write left. *)
Lemma last_write_last (log : list (str * str)) (p c : str) :
  last_write (log ++ [(p, c)]) p = Some c.
Proof.
  induction log as [|[q c'] log IH]; simpl.
  - now rewrite str_eqb_refl.
  - now rewrite IH.
Qed.

Lemma starts_with_app (lit a b : str) :
  starts_with lit a = true -> starts_with lit (a ++ b) = true.
Proof.
  revert a. induction lit as [|x lit IH]; intros [|y a]; simpl; try easy.
  intros H. apply andb_true_iff in H. destruct H as [-> H]. now apply IH.
Qed.

Lemma document_shape (a l name m b c table d : str) :
  exists pre mid post,
    (a ++ l) ++ name ++ (m ++ b) ++ name ++ c ++ table ++ d
    = pre ++ l ++ name ++ m ++ mid ++ table ++ post.
Proof. exists a, (b ++ name ++ c), d. now rewrite <- !app_assoc. Qed.

Lemma page_html_document (name table : str) :
  detail_document name table (page_html name table).
Proof.
  unfold detail_document, page_html. split.
  - apply starts_with_app. vm_compute. reflexivity.
  - replace (t "<!doctype html>
            <html lang=`zh-Hant`>
            <head>
            <meta charset=`utf-8`>
            <meta name=`viewport` content=`width=device-width, initial-scale=1`>
            <title>")
      with (t "<!doctype html>
            <html lang=`zh-Hant`>
            <head>
            <meta charset=`utf-8`>
            <meta name=`viewport` content=`width=device-width, initial-scale=1`>
            " ++ u "<title>")
      by (vm_compute; reflexivity).
    replace (t " - 量測資料</title>
            <link href=`https://cdn.jsdelivr.net/npm/bootstrap@5.1.3/dist/css/bootstrap.min.css` rel=`stylesheet`>
            </head>
            <body class=`p-3`>
            <h3>")
      with (u " - 量測資料</title>" ++ t "
            <link href=`https://cdn.jsdelivr.net/npm/bootstrap@5.1.3/dist/css/bootstrap.min.css` rel=`stylesheet`>
            </head>
            <body class=`p-3`>
            <h3>")
      by (vm_compute; reflexivity).
    with_strategy opaque [t u] (apply document_shape).
Qed.

(** The second [try] block prints nothing and saves nothing.  When it
    returns, it has written the whole page and its value is the link to it;
    when it raises, it has written nothing, or has left the page's file
    empty or cut short. *)
Lemma write_detail_page_world (sheets : list (str * result DataFrame))
  (name data_dir : str) (w : World) :
  match write_detail_page sheets name data_dir w with
  | (w1, Ok href) =>
    href = u "./data/" ++ safe_slug uni_alnum name ++ u "_量測資料.html"
    /\ stdout w1 = stdout w /\ saved w1 = saved w
    /\ exists table,
         written w1 = written w ++ [(detail_path data_dir name, page_html name table)]
  | (w1, Raise _) =>
    stdout w1 = stdout w /\ saved w1 = saved w
    /\ (written w1 = written w
        \/ exists part, written w1 = written w ++ [(detail_path data_dir name, part)])
  end.
Proof.
  unfold write_detail_page, mkdir, write_text, leave_file, detail_path,
    path_join, meas_filename_of.
  unfold bind, lift, ret.
  destruct (read_excel sheets SHEET_MEAS) as [meas|]; [|now auto].
  destruct (if has_column _ _ then _ else _) as [shown|]; [|now auto].
  destruct (fs_mkdir w data_dir); [now auto|].
  destruct (to_html shown) as [table|]; [|now auto].
  destruct (fs_write w _); [now auto|].
  destruct (encodable _).
  - destruct (fs_cut w _ _) as [[e n]|]; cbn [stdout saved written].
    + repeat split. right. now eexists.
    + repeat split. now exists table.
  - cbn [stdout saved written]. repeat split. right. now eexists.
Qed.

(** All the routine does to the world. *)
Lemma read_park_xlsx_world (path : str) (file : xlsx) (data_dir : str) (w : World) :
  exists w' r lines pages,
    read_park_xlsx path file data_dir w = (w', r)
    /\ ((r = Raise encode_error /\ lines = [])
        \/ exists o, r = Ok o /\ (o = None -> pages = []))
    /\ saved w' = saved w
    /\ stdout w' = stdout w ++ lines /\ List.length lines <= 1
    /\ written w' = written w ++ pages /\ List.length pages <= 1
    /\ Forall (fun p => exists name, fst p = detail_path data_dir name) pages.
Proof.
  destruct (load_basic_info file) as [[[sheets m]|]|e] eqn:Hl.
  2,3: exists w, (Ok None), [], [];
       rewrite read_park_xlsx_not_loaded by (intros ? ?; rewrite Hl; discriminate);
       rewrite !app_nil_r; simpl; repeat split; try lia; try apply Forall_nil;
       right; exists None; now split.
  rewrite (@read_park_xlsx_loaded _ path _ data_dir w _ _ Hl). cbv zeta.
  assert (Hwarn : forall line,
    exists w' r lines pages,
      (print line ;;; ret (@None ParkRecord)) w = (w', r)
      /\ ((r = Raise encode_error /\ lines = [])
          \/ exists o, r = Ok o /\ (o = None -> pages = []))
      /\ saved w' = saved w
      /\ stdout w' = stdout w ++ lines /\ List.length lines <= 1
      /\ written w' = written w ++ pages /\ List.length pages <= 1
      /\ Forall (fun p => exists name, fst p = detail_path data_dir name) pages).
  { intros line. rewrite print_then. unfold ret. destruct (encodable line).
    - eexists _, _, [line], []. cbn [stdout saved written]. rewrite app_nil_r.
      repeat split; simpl; try lia; try apply Forall_nil. right. exists None. now split.
    - exists w, (Raise encode_error), [], []. rewrite !app_nil_r.
      repeat split; simpl; try lia; try apply Forall_nil. now left. }
  destruct (py_float (m_get m KEY_LON)) as [flon|]; [|apply Hwarn].
  destruct (py_float (m_get m KEY_LAT)) as [flat|]; [|apply Hwarn].
  clear Hwarn.
  destruct (str_in SHEET_MEAS (sheet_names sheets)).
  - pose proof (write_detail_page_world sheets (get_str m KEY_NAME (stem path))
                                        data_dir w) as Hw.
    destruct (write_detail_page sheets _ data_dir w) as [w1 [href|e]].
    + destruct Hw as (_ & Hout & Hsv & table & Hwr).
      eexists w1, _, [], [_]. rewrite app_nil_r.
      repeat split; simpl; try eassumption; try lia.
      * right. eexists. split; [reflexivity | discriminate].
      * constructor; [|constructor]. now eexists.
    + destruct Hw as (Hout & Hsv & Hwr).
      rewrite print_then. unfold ret.
      assert (Hp : exists pages,
                 written w1 = written w ++ pages /\ List.length pages <= 1
                 /\ Forall (fun p => exists name, fst p = detail_path data_dir name)
                           pages).
      { destruct Hwr as [Hwr|[part Hwr]].
        - exists []. rewrite app_nil_r. repeat split; simpl; try lia; try apply Forall_nil.
          exact Hwr.
        - eexists [_]. repeat split; simpl; try lia; [exact Hwr|].
          constructor; [|constructor]. now eexists. }
      destruct Hp as (pages & Hwr' & Hlen & HF).
      destruct (encodable _).
      * eexists _, _, [_], pages. cbn [stdout saved written]. rewrite Hout.
        repeat split; simpl; try eassumption; try lia.
        right. eexists. split; [reflexivity | discriminate].
      * exists w1, (Raise encode_error), [], pages. rewrite app_nil_r.
        repeat split; simpl; try eassumption; try lia. now left.
  - eexists w, _, [], []. rewrite !app_nil_r.
    repeat split; simpl; try lia; try apply Forall_nil.
    right. eexists. split; [reflexivity | discriminate].
Qed.

End WithRuntime.

(** A target workbook without a name row is named after its file: the park
    name of its record is the file name without the [.xlsx] suffix. *)
Theorem unnamed_park_takes_file_stem {R : Runtime}
  (base : str) (file : xlsx) (data_dir : str) (w w' : World) (d : ParkRecord)
  (sheets : list (str * result DataFrame)) (m : dict) :
  base <> [] ->
  load_basic_info file = Ok (Some (sheets, m)) ->
  dict_get m KEY_NAME = None ->
  read_park_xlsx (base ++ u ".xlsx") file data_dir w = (w', Ok (Some d)) ->
  park_name d = base.
Proof.
  intros Hb Hl Hk Hread.
  destruct (@read_park_xlsx_record _ _ _ _ _ _ _ _ _ Hl Hread) as (flon & flat & href & -> & _).
  simpl. unfold get_str. rewrite Hk. simpl. now apply stem_xlsx.
Qed.

(** The theorem above at a workbook with the two coordinate rows only. *)
Lemma unnamed_park_takes_file_stem_witness :
  exists d,
    (u "zone7" <> []
     /\ load_basic_info (Workbook [basic_sheet unnamed_info])
        = Ok (Some ([basic_sheet unnamed_info], to_dict (basic_df unnamed_info)))
     /\ dict_get (to_dict (basic_df unnamed_info)) KEY_NAME = None
     /\ read_park_xlsx (R := plain_runtime) (u "zone7" ++ u ".xlsx")
                       (Workbook [basic_sheet unnamed_info]) OUTPUT_DIR world0
        = (world0, Ok (Some d)))
    /\ park_name d = u "zone7".
Proof.
  assert (Hread : exists d,
             read_park_xlsx (R := plain_runtime) (u "zone7" ++ u ".xlsx")
                            (Workbook [basic_sheet unnamed_info]) OUTPUT_DIR world0
             = (world0, Ok (Some d))).
  { eexists. cbv. reflexivity. }
  destruct Hread as (d & Hread). exists d.
  assert (Hb : u "zone7" <> []) by discriminate.
  split; [repeat split; try reflexivity; assumption|].
  exact (@unnamed_park_takes_file_stem plain_runtime (u "zone7")
           (Workbook [basic_sheet unnamed_info]) OUTPUT_DIR world0 world0 d
           [basic_sheet unnamed_info] (to_dict (basic_df unnamed_info))
           Hb eq_refl eq_refl Hread).
Defined.

(** The routine catches every exception but that of its own warnings: it
    returns, or it is left by the UnicodeEncodeError of a warning that cannot
    be printed, and then it has printed nothing.  It never saves a document;
    it prints at most one line and opens at most one file for writing, and a
    file it turns down (the result is [None]) leaves no detail page
    behind. *)
Theorem read_park_xlsx_effects {R : Runtime}
  (path : str) (file : xlsx) (data_dir : str) (w : World) :
  exists w' r lines pages,
    read_park_xlsx path file data_dir w = (w', r)
    /\ ((r = Raise encode_error /\ lines = [])
        \/ exists o, r = Ok o /\ (o = None -> pages = []))
    /\ saved w' = saved w
    /\ stdout w' = stdout w ++ lines /\ List.length lines <= 1
    /\ written w' = written w ++ pages /\ List.length pages <= 1.
Proof.
  destruct (read_park_xlsx_world path file data_dir w)
    as (w' & r & lines & pages & H1 & H2 & H3 & H4 & H5 & H6 & H7 & _).
  exists w', r, lines, pages. repeat split; assumption.
Qed.



(** A key that has a row gives the text of its value, whatever the value: a
    number is written out, an empty cell gives the text of NaN and not the
    placeholder, and only [None] gives the empty string. *)
Theorem present_metadata_is_stringified {R : Runtime}
  (path : str) (file : xlsx) (data_dir : str) (w w' : World) (d : ParkRecord)
  (sheets : list (str * result DataFrame)) (m : dict) :
  load_basic_info file = Ok (Some (sheets, m)) ->
  read_park_xlsx path file data_dir w = (w', Ok (Some d)) ->
  (forall v, dict_get m KEY_NAME = Some v -> park_name d = shown_value v)
  /\ (forall v, dict_get m KEY_PERIOD = Some v -> monitoring_period d = shown_value v)
  /\ (forall v, dict_get m KEY_TYPE = Some v -> data_type d = shown_value v)
  /\ (forall v, dict_get m KEY_NOTE = Some v -> note d = shown_value v).
Proof.
  intros Hl Hread.
  destruct (@read_park_xlsx_record _ _ _ _ _ _ _ _ _ Hl Hread) as (flon & flat & href & -> & _).
  unfold record_of, get_str, shown_value; simpl.
  repeat split; intros v Hv; rewrite Hv; reflexivity.
Qed.

(** The theorem above at a sheet with a numeric period and an empty note. *)
Lemma present_metadata_is_stringified_witness :
  exists d,
    read_park_xlsx (R := plain_runtime) (u "a.xlsx")
                   (Workbook [basic_sheet sparse_info]) OUTPUT_DIR world0
    = (world0, Ok (Some d))
    /\ monitoring_period d = u "2024"
    /\ note d = u "nan".
Proof.
  assert (Hread : exists d,
             read_park_xlsx (R := plain_runtime) (u "a.xlsx")
                            (Workbook [basic_sheet sparse_info]) OUTPUT_DIR world0
             = (world0, Ok (Some d))).
  { eexists. cbv. reflexivity. }
  destruct Hread as (d & Hread). exists d. split; [exact Hread|].
  destruct (@present_metadata_is_stringified plain_runtime (u "a.xlsx")
              (Workbook [basic_sheet sparse_info]) OUTPUT_DIR
              world0 world0 d [basic_sheet sparse_info]
              (to_dict (basic_df sparse_info)) eq_refl Hread)
    as (_ & Hp & _ & Hn).
  split; [exact (Hp (PyInt 2024) eq_refl) | exact (Hn nan_cell eq_refl)].
Defined.

End ExtractorMore.

(* ================================================================== *)
(** ** More on the scan, the background layers and the run *)
(* ================================================================== *)

Module MainMore.

Import ExtractorFacts MainFacts ExtractorMore.

Section WithRuntime.

Context {R : Runtime}.

(** *** Locations *)

Lemma validate_location_ok (a b : pyval) (fa fb : float) :
  validate_location a b = Ok (fa, fb) -> is_nan fa = false /\ is_nan fb = false.
Proof.
  unfold validate_location.
  destruct (py_float a) as [x|]; [|discriminate].
  destruct (is_nan x) eqn:Hx; [discriminate|].
  destruct (py_float b) as [y|]; [|discriminate].
  destruct (is_nan y) eqn:Hy; [discriminate|].
  intros [= <- <-]. now split.
Qed.

Lemma circle_marker_no_nan (color : str) (r : PointRow) (mk : Marker) :
  circle_marker color r = Ok mk -> no_nan mk.
Proof.
  unfold circle_marker.
  destruct (validate_location (row_lat r) (row_lon r)) as [[fa fb]|] eqn:Hv;
    [|discriminate].
  intros [= <-]. exact (validate_location_ok _ _ Hv).
Qed.

Lemma target_marker_no_nan (d : ParkRecord) (mk : Marker) :
  target_marker d = Ok mk -> no_nan mk.
Proof.
  unfold target_marker.
  destruct (validate_location _ _) as [[fa fb]|] eqn:Hv; [|discriminate].
  intros [= <-]. exact (validate_location_ok _ _ Hv).
Qed.

(** *** The loops over the point sheets *)

Lemma add_points_no_nan (color : str) (rs : list PointRow) :
  forall fg, Forall no_nan fg -> Forall no_nan (fst (add_points color rs fg)).
Proof.
  induction rs as [|r rs IH]; intros fg Hfg; simpl; [exact Hfg|].
  destruct (notnull (row_lat r) && notnull (row_lon r)); [|now apply IH].
  destruct (circle_marker color r) as [mk|] eqn:Hmk; [|exact Hfg].
  apply IH, Forall_app. split; [exact Hfg|].
  constructor; [exact (circle_marker_no_nan _ _ Hmk) | constructor].
Qed.

Lemma load_points_no_nan (color : str) (src : source (list PointRow)) :
  Forall no_nan (load_points color src).
Proof.
  destruct src as [|e|[rs|e]]; simpl; try constructor.
  apply add_points_no_nan. constructor.
Qed.

Lemma add_points_stops (color : str) (good : list PointRow) (bad : PointRow)
  (rest : list PointRow) (e : exn) :
  notnull (row_lat bad) && notnull (row_lon bad) = true ->
  circle_marker color bad = Raise e ->
  forall fg,
    fst (add_points color (good ++ bad :: rest) fg) = fst (add_points color good fg).
Proof.
  intros Hn Hbad. induction good as [|r good IH]; intros fg; simpl.
  - now rewrite Hn, Hbad.
  - destruct (notnull (row_lat r) && notnull (row_lon r)); [|apply IH].
    destruct (circle_marker color r); [apply IH | reflexivity].
Qed.

Lemma add_points_float_rows (color : str) (ps : list (float * float * pyval)) :
  forall fg,
    snd (add_points color (map float_row ps) fg) = Ok tt
    /\ map location (fst (add_points color (map float_row ps) fg))
       = map location fg ++ map fst (filter both_present ps).
Proof.
  induction ps as [|[[a b] n] ps IH]; intros fg; simpl.
  - now rewrite app_nil_r.
  - unfold both_present at 1. simpl.
    destruct (is_nan a) eqn:Ha; simpl; [apply IH|].
    destruct (is_nan b) eqn:Hb; simpl; [apply IH|].
    unfold circle_marker, validate_location. simpl. rewrite Ha, Hb.
    match goal with
    | |- context [add_points _ _ (fg ++ [?mk])] =>
      destruct (IH (fg ++ [mk])) as [H1 H2]
    end.
    split; [exact H1|]. rewrite H2, map_app. simpl. now rewrite <- app_assoc.
Qed.

(** *** The composed document *)

Lemma overlays_composed (bg : Background) (fg : list Marker) :
  overlays (composed bg fg)
  = geo_layers bg
    ++ [FeatureGroup (u "學校") (load_points (u "red") (school bg));
        FeatureGroup (u "全台工業區中心點") (load_points (u "purple") (center bg));
        FeatureGroup TARGET_GROUP fg].
Proof.
  unfold composed, background_map, geo_layers, add_overlay. cbn [overlays].
  destruct (county bg) as [|e0|[[]|ec]], (industrial bg) as [|e1|[[]|ei]];
    reflexivity.
Qed.

Lemma all_markers_composed (bg : Background) (fg : list Marker) :
  all_markers (composed bg fg)
  = load_points (u "red") (school bg) ++ load_points (u "purple") (center bg) ++ fg.
Proof.
  unfold all_markers. rewrite overlays_composed, flat_map_app.
  replace (flat_map _ (geo_layers bg)) with (@nil Marker).
  - cbn [flat_map app]. now rewrite app_nil_r.
  - unfold geo_layers.
    destruct (county bg) as [|e0|[[]|ec]], (industrial bg) as [|e1|[[]|ei]];
      reflexivity.
Qed.

(** *** What the run writes *)

Lemma detail_path_data (name : str) :
  detail_path OUTPUT_DIR name
  = u "data/" ++ safe_slug uni_alnum name ++ u "_量測資料.html".
Proof.
  unfold detail_path. rewrite app_assoc.
  replace (OUTPUT_DIR ++ u "/") with (u "data/") by (vm_compute; reflexivity).
  reflexivity.
Qed.

Lemma read_park_xlsx_written (path : str) (file : xlsx) (w : World) :
  exists pages,
    written (fst (read_park_xlsx path file OUTPUT_DIR w)) = written w ++ pages
    /\ Forall (fun p => is_detail_path (fst p)) pages.
Proof.
  destruct (read_park_xlsx_world path file OUTPUT_DIR w)
    as (w' & r & lines & pages & Hr & _ & _ & _ & _ & Hw & _ & HF).
  exists pages. rewrite Hr. split; [exact Hw|].
  eapply Forall_impl; [|exact HF].
  intros p (name & Hp). exists name. rewrite Hp. apply detail_path_data.
Qed.

Lemma print_written (line : str) (w : World) :
  written (fst (print line w)) = written w.
Proof. unfold print. now destruct (encodable line). Qed.

Lemma scan_targets_written (files : list (str * xlsx)) :
  forall (fg : list Marker) (count : Z) (w : World),
  exists pages,
    written (fst (scan_targets files fg count w)) = written w ++ pages
    /\ Forall (fun p => is_detail_path (fst p)) pages.
Proof.
  induction files as [|[name file] rest IH]; intros fg count w.
  - exists []. rewrite app_nil_r. split; [reflexivity | constructor].
  - rewrite scan_targets_cons.
    destruct (str_in name EXCLUDE_FILES); [apply IH|].
    destruct (read_park_xlsx_written name file w) as (p1 & H1 & F1).
    unfold bind at 1.
    destruct (read_park_xlsx name file OUTPUT_DIR w) as [w1 [[d|]|e]];
      cbn [fst] in H1.
    + rewrite print_then. destruct (encodable _); [|now exists p1].
      set (w2 := {| stdout := _; written := written w1; saved := saved w1 |}).
      unfold bind at 1, lift.
      destruct (target_marker d) as [mk|e].
      * destruct (IH (fg ++ [mk]) (count + 1)%Z w2) as (p2 & H2 & F2).
        exists (p1 ++ p2). rewrite H2. subst w2. cbn [written].
        rewrite H1, app_assoc. split; [reflexivity | now apply Forall_app].
      * exists p1. split; [exact H1 | exact F1].
    + destruct (IH fg count w1) as (p2 & H2 & F2).
      exists (p1 ++ p2). rewrite H2, H1, app_assoc.
      split; [reflexivity | now apply Forall_app].
    + now exists p1.
Qed.

Lemma background_phase_written (bg : Background) (w : World) :
  written (fst (background_phase bg w)) = written w.
Proof.
  unfold background_phase, path_exists.
  unfold bind, try_except, lift, ret.
  destruct (county bg) as [|e0|[[]|ec]]; try reflexivity.
  3: { pose proof (print_written (u "⚠️ 載入縣市邊界失敗: " ++ exn_str ec) w) as Hp.
       destruct (print _ w) as [w1 [[]|e]]; cbn [fst] in Hp; [|exact Hp].
       destruct (industrial bg) as [|e1|[[]|ei]]; try exact Hp;
         (destruct (school bg) as [|e2|rs]; try exact Hp);
         (destruct (center bg) as [|e3|rc]; exact Hp). }
  all: destruct (industrial bg) as [|e1|[[]|ei]]; try reflexivity;
       (destruct (school bg) as [|e2|rs]; try reflexivity);
       (destruct (center bg) as [|e3|rc]; reflexivity).
Qed.

Lemma scan_phase_written (m : FoliumMap) (dir : list (str * xlsx)) (w : World) :
  exists pages,
    written (fst (scan_phase m dir w)) = written w ++ pages
    /\ Forall (fun p => is_detail_path (fst p)) pages.
Proof.
  unfold scan_phase. cbv zeta. rewrite print_then.
  destruct (encodable _).
  2: { exists []. rewrite app_nil_r. split; [reflexivity | constructor]. }
  set (w1 := {| stdout := _; written := written w; saved := saved w |}).
  destruct (scan_targets_written (glob_xlsx dir) [] 0 w1) as (pages & Hw & HF).
  exists pages. split; [|exact HF]. unfold bind at 1.
  destruct (scan_targets (glob_xlsx dir) [] 0 w1) as [w2 [[fg count]|e]];
    cbn [fst] in Hw; [|exact Hw].
  rewrite print_then. destruct (encodable _); [|exact Hw].
  unfold save, bind. cbn [fst].
  destruct (fs_write _ OUTPUT_HTML); cbv beta iota; [exact Hw|].
  rewrite print_written. exact Hw.
Qed.

End WithRuntime.

(** Whatever the directory holds and however the run ends, every file it
    opens for writing with [write_text], whether the write goes through or
    not, is a detail page: it lies in the directory [data] and is named by
    the slug of a park name followed by [_量測資料.html]. *)
Theorem run_writes_only_detail_pages {R : Runtime}
  (bg : Background) (dir : list (str * xlsx)) (w : World) :
  exists pages,
    written (fst (main bg dir w)) = written w ++ pages
    /\ Forall (fun p => is_detail_path (fst p)) pages.
Proof.
  rewrite main_split, print_then.
  replace (encodable (u "🚀 開始建立地圖...")) with true by reflexivity.
  set (wb := {| stdout := _; written := written w; saved := saved w |}).
  unfold bind at 1.
  pose proof (background_phase_written bg wb) as Hb.
  destruct (background_phase bg wb) as [w1 [m|e]]; cbn [fst] in Hb.
  - destruct (scan_phase_written m dir w1) as (pages & Hw & HF).
    exists pages. rewrite Hw, Hb. split; [reflexivity | exact HF].
  - exists []. rewrite app_nil_r. split; [exact Hb | constructor].
Qed.

(** The scan treats a directory exactly as it treats the directory without
    the files of the deny list: whatever an excluded workbook contains, it is
    never opened and contributes no record, marker, page or message. *)
Theorem excluded_files_are_ignored {R : Runtime} (files : list (str * xlsx)) :
  forall (fg : list Marker) (count : Z) (w : World),
    scan_targets files fg count w
    = scan_targets (filter not_excluded files) fg count w.
Proof.
  induction files as [|[name file] rest IH]; intros fg count w; [reflexivity|].
  rewrite scan_targets_cons. cbn [filter]. unfold not_excluded at 1. cbn [fst].
  destruct (str_in name EXCLUDE_FILES) eqn:Hx; cbn [negb]; [apply IH|].
  rewrite scan_targets_cons, Hx. unfold bind.
  destruct (read_park_xlsx name file OUTPUT_DIR w) as [w1 [[d|]|e]];
    try reflexivity; [|apply IH].
  destruct (print _ w1) as [w2 [[]|e]]; [|reflexivity].
  destruct (lift (target_marker d) w2) as [w3 [mk|e]]; [apply IH | reflexivity].
Qed.

(** One row whose coordinates are present but do not convert (text, for
    instance) ends the loading of a point layer: the markers of the rows
    before it stay, the rows after it are dropped, whatever they hold. *)
Theorem bad_row_drops_the_rest {R : Runtime} (color : str)
  (good : list PointRow) (bad : PointRow) (rest : list PointRow) (e : exn) :
  notnull (row_lat bad) && notnull (row_lon bad) = true ->
  circle_marker color bad = Raise e ->
  load_points color (Present (Ok (good ++ bad :: rest)))
  = load_points color (Present (Ok good)).
Proof.
  intros Hn Hbad. simpl. now apply add_points_stops with (e := e).
Qed.

(** The theorem above at a school sheet whose second row has a text
    latitude: only the first school is on the map. *)
Lemma bad_row_drops_the_rest_witness :
  load_points (R := plain_runtime) (u "red")
              (Present (Ok (school_rows_good ++ school_row_bad :: school_rows_rest)))
  = load_points (R := plain_runtime) (u "red") (Present (Ok school_rows_good)).
Proof.
  apply (@bad_row_drops_the_rest plain_runtime (u "red") school_rows_good
           school_row_bad school_rows_rest
           (Exn (u "ValueError") (u "Location should consist of two numerical values")));
    reflexivity.
Defined.

(** On a point sheet whose coordinate cells hold numbers or are empty, the
    loader puts one marker per row with both coordinates present, in sheet
    order and at (lat, lon), and passes over the other rows. *)
Theorem point_layer_skips_blank_rows {R : Runtime} (color : str)
  (ps : list (float * float * pyval)) :
  map location (load_points color (Present (Ok (map float_row ps))))
  = map fst (filter both_present ps).
Proof.
  simpl. now destruct (add_points_float_rows color ps []) as [_ ->].
Qed.

(** No marker of a saved document has a NaN coordinate, in the school and
    centre layers as in the target group. *)
Theorem saved_markers_have_no_nan {R : Runtime}
  (bg : Background) (dir : list (str * xlsx)) (w w' : World) :
  main bg dir w = (w', Ok tt) ->
  exists m, saved w' = saved w ++ [(OUTPUT_HTML, m)]
            /\ Forall no_nan (all_markers m).
Proof.
  intros Hmain. destruct (main_ok _ _ _ Hmain) as (fg & Hsv & HF & _).
  exists (composed bg fg). split; [exact Hsv|].
  rewrite all_markers_composed. rewrite !Forall_app.
  repeat split; try apply load_points_no_nan.
  clear Hsv Hmain. induction HF as [|d mk ds mks Hmk _ IH]; constructor; auto.
  exact (target_marker_no_nan _ Hmk).
Qed.

(** The theorem above at the directory of the first scenario. *)
Lemma saved_markers_have_no_nan_witness :
  exists w' m,
    main (R := plain_runtime) no_background scenario_dir world0 = (w', Ok tt)
    /\ saved w' = saved world0 ++ [(OUTPUT_HTML, m)]
    /\ Forall no_nan (all_markers m).
Proof.
  assert (Hmain : exists w',
             main (R := plain_runtime) no_background scenario_dir world0
             = (w', Ok tt)).
  { eexists. vm_compute. reflexivity. }
  destruct Hmain as (w' & Hmain).
  destruct (saved_markers_have_no_nan (R := plain_runtime) _ _ _ Hmain) as (m & H).
  exists w', m. split; [exact Hmain | exact H].
Defined.

(** Every saved document has the same layout: the GeoJSON layers that could
    be loaded, then the school group, the centre group and the target group,
    in this order and present even when empty; the feedback script exactly
    once, whatever the number of records; and the layer control. *)
Theorem document_layout {R : Runtime}
  (bg : Background) (dir : list (str * xlsx)) (w w' : World) :
  main bg dir w = (w', Ok tt) ->
  exists m fg,
    saved w' = saved w ++ [(OUTPUT_HTML, m)]
    /\ overlays m
       = geo_layers bg
         ++ [FeatureGroup (u "學校") (load_points (u "red") (school bg));
             FeatureGroup (u "全台工業區中心點")
                          (load_points (u "purple") (center bg));
             FeatureGroup TARGET_GROUP fg]
    /\ html_children m = [feedback_js]
    /\ layer_control m = true.
Proof.
  intros Hmain. destruct (main_ok _ _ _ Hmain) as (fg & Hsv & _ & _).
  exists (composed bg fg), fg. split; [exact Hsv|].
  split; [apply overlays_composed|]. split; reflexivity.
Qed.

(** The theorem above at the directory of the first scenario. *)
Lemma document_layout_witness :
  exists w' m fg,
    main (R := plain_runtime) no_background scenario_dir world0 = (w', Ok tt)
    /\ saved w' = saved world0 ++ [(OUTPUT_HTML, m)]
    /\ overlays m
       = [FeatureGroup (u "學校") [];
          FeatureGroup (u "全台工業區中心點") [];
          FeatureGroup TARGET_GROUP fg]
    /\ html_children m = [feedback_js]
    /\ layer_control m = true.
Proof.
  assert (Hmain : exists w',
             main (R := plain_runtime) no_background scenario_dir world0
             = (w', Ok tt)).
  { eexists. vm_compute. reflexivity. }
  destruct Hmain as (w' & Hmain).
  destruct (document_layout (R := plain_runtime) _ _ _ Hmain) as (m & fg & H).
  exists w', m, fg. split; [exact Hmain | exact H].
Defined.

(** In every saved document, the popup of a target marker whose record has a
    detail page contains an anchor whose [href] is the record's link and
    which opens in a new tab. *)
Theorem popups_link_to_pages {R : Runtime}
  (bg : Background) (dir : list (str * xlsx)) (w w' : World) :
  main bg dir w = (w', Ok tt) ->
  exists m,
    saved w' = saved w ++ [(OUTPUT_HTML, m)]
    /\ Forall2 (fun d mk =>
                  raw_page_href d <> [] ->
                  exists html, popup mk = Some html
                               /\ links_to (raw_page_href d) html)
               (extracted (glob_xlsx dir) (scan_start bg dir w))
               (target_markers m).
Proof.
  intros Hmain. destruct (main_ok _ _ _ Hmain) as (fg & Hsv & HF & _).
  exists (composed bg fg). rewrite target_markers_composed.
  split; [exact Hsv|]. clear Hsv Hmain.
  induction HF as [|d mk ds mks Hmk _ IH]; [constructor|].
  constructor; [|exact IH]. intros Hhref.
  destruct (target_marker_ok _ Hmk) as (_ & -> & _).
  exists (create_popup_html d). split; [reflexivity|].
  unfold links_to, create_popup_html. cbv zeta.
  destruct (raw_page_href d) as [|c href]; [now destruct Hhref|].
  unfold btn_html.
  replace (t "` target=`_blank` style=`color:white;background:#0d6efd;padding:4px 8px;text-decoration:none;border-radius:4px;font-size:12px;`>查看原始資料</a>")
    with (t "` target=`_blank`" ++ t " style=`color:white;background:#0d6efd;padding:4px 8px;text-decoration:none;border-radius:4px;font-size:12px;`>查看原始資料</a>")
    by (vm_compute; reflexivity).
  rewrite <- !app_assoc.
  with_strategy opaque [t u meta_div feedback_html safe_slug]
    (do 7 apply call_later; apply call_here).
Qed.

(** The theorem above at a directory with the measured park, whose record
    has a link. *)
Lemma popups_link_to_pages_witness :
  exists w' m,
    main (R := plain_runtime) no_background [(u "park.xlsx", measured_park)] world0
    = (w', Ok tt)
    /\ map raw_page_href
           (extracted (R := plain_runtime)
              (glob_xlsx [(u "park.xlsx", measured_park)])
              (scan_start no_background [(u "park.xlsx", measured_park)] world0))
       = [u "./data/示範園區_量測資料.html"]
    /\ saved w' = saved world0 ++ [(OUTPUT_HTML, m)]
    /\ Forall2 (fun d mk =>
                  raw_page_href d <> [] ->
                  exists html, popup mk = Some html
                               /\ links_to (raw_page_href d) html)
               (extracted (R := plain_runtime)
                  (glob_xlsx [(u "park.xlsx", measured_park)])
                  (scan_start no_background [(u "park.xlsx", measured_park)] world0))
               (target_markers m).
Proof.
  assert (Hmain : exists w',
             main (R := plain_runtime) no_background
                  [(u "park.xlsx", measured_park)] world0 = (w', Ok tt)).
  { eexists. vm_compute. reflexivity. }
  destruct Hmain as (w' & Hmain).
  destruct (popups_link_to_pages (R := plain_runtime) _ _ _ Hmain) as (m & H).
  exists w', m. split; [exact Hmain|]. split; [vm_compute; reflexivity | exact H].
Defined.

End MainMore.
